(** * Document analysis pipeline (src/main.py): a shallow embedding

    The program is a Streamlit page that uploads a document to S3, extracts
    its text with Textract, and sends prompt and text to a Bedrock model.

    Modelling choices, all visible below:
    - Python values that come back from the services are untyped: [pyval]
      follows what [json.loads] and boto3 produce (None, bool, int, float,
      str, list, dict with string keys).  A float is represented by the
      rational it denotes; only sign and zero tests of floats are used.
    - A Python [str] is a Rocq [string] (a byte string).  The code splits
      a file name at dots and tests [len(...) > 0]; it inspects no character
      beyond ASCII and uses no other length.
    - External calls (S3, Textract, Bedrock, the clock, the PDF library, the
      temp file) are oracles in an environment record [env]; each returns an
      [outcome]: a value or a raised exception.
    - Effects are threaded by the monad [M]: a state (the chronological log of
      visible events and the number of clock reads so far) plus exceptions.
      An exception keeps the state reached: events already emitted stay.
    - Not modelled: the static page furniture (title, columns, header) and
      the two-decimal rendering of the metrics.  Exceptions outside
      [Exception] (KeyboardInterrupt, SystemExit) are not modelled either.
      The functions take their settings from [env]; the module-level
      statements that read them (lines 14-23) are [module_init]. *)

From Stdlib Require Import ZArith QArith String Ascii List Lia Lqa DecimalString.
From stdpp Require Import base strings list gmap.

#[local] Open Scope string_scope.

(** ** Python values *)

#[warnings="-register-all"]
Inductive pyval :=
  | PNone
  | PBool (b : bool)
  | PInt (z : Z)
  | PFloat (q : Q)
  | PStr (s : string)
  | PList (l : list pyval)
  | PDict (d : gmap string pyval).

(** Exceptions derived from [Exception].  [ServiceError] stands for whatever
    a library or service call raises (botocore ClientError, PdfReadError,
    OSError, a JSON decoding error, ...); its text is the oracle's. *)
Inductive exn :=
  | KeyError (key : pyval)
  | TypeError
  | IndexError
  | ServiceError (msg : string).

Inductive outcome (A : Type) :=
  | Ok (a : A)
  | Raise (e : exn).
Arguments Ok {A} a.
Arguments Raise {A} e.

#[export] Instance outcome_ret : MRet outcome := fun A a => Ok a.
#[export] Instance outcome_bind : MBind outcome := fun A B k o =>
  match o with
  | Ok a => k a
  | Raise e => Raise e
  end.

Module Py.

(** [needle in hay] for two strings: substring test. *)
Fixpoint substringb (needle hay : string) : bool :=
  String.prefix needle hay
  || match hay with
     | EmptyString => false
     | String _ hay' => substringb needle hay'
     end.

Definition is_str (k : string) (v : pyval) : bool :=
  match v with
  | PStr s => String.eqb s k
  | _ => false
  end.

(** [k in v] for a string literal [k]: key of a dict, element of a list,
    substring of a str; any other operand is not iterable. *)
Definition contains (k : string) (v : pyval) : outcome bool :=
  match v with
  | PDict d => Ok (bool_decide (is_Some (d !! k)))
  | PList l => Ok (existsb (is_str k) l)
  | PStr s => Ok (substringb k s)
  | _ => Raise TypeError
  end.

(** [v[k]] for a string literal [k]. *)
Definition getitem (v : pyval) (k : string) : outcome pyval :=
  match v with
  | PDict d =>
      match d !! k with
      | Some x => Ok x
      | None => Raise (KeyError (PStr k))
      end
  | _ => Raise TypeError
  end.

(** [v[0]].  A dict decoded from JSON has string keys only, so the integer
    key 0 is never present.  The first character of a str is again a str. *)
Definition getitem0 (v : pyval) : outcome pyval :=
  match v with
  | PList (x :: _) => Ok x
  | PList [] => Raise IndexError
  | PStr (String a _) => Ok (PStr (String a EmptyString))
  | PStr EmptyString => Raise IndexError
  | PDict _ => Raise (KeyError (PInt 0%Z))
  | _ => Raise TypeError
  end.

(** [len(v)]. *)
Definition len (v : pyval) : outcome nat :=
  match v with
  | PList l => Ok (length l)
  | PStr s => Ok (String.length s)
  | PDict d => Ok (size d)
  | _ => Raise TypeError
  end.

Fixpoint chars (s : string) : list pyval :=
  match s with
  | EmptyString => []
  | String a s' => PStr (String a EmptyString) :: chars s'
  end.

(** The items a [for] loop visits.  A dict yields its keys; CPython yields
    them in insertion order, which [gmap] does not record, so they come in
    the map's own order. *)
Definition iter (v : pyval) : outcome (list pyval) :=
  match v with
  | PList l => Ok l
  | PStr s => Ok (chars s)
  | PDict d => Ok (PStr <$> (map_to_list d).*1)
  | _ => Raise TypeError
  end.

(** The argument check of [sep.join(items)]: every item must be a str. *)
Fixpoint strs (items : list pyval) : outcome (list string) :=
  match items with
  | [] => Ok []
  | PStr s :: rest => ss ← strs rest; Ok (s :: ss)
  | _ :: _ => Raise TypeError
  end.

(** [sep.join(items)]. *)
Definition join (sep : string) (items : list pyval) : outcome string :=
  ss ← strs items; Ok (String.concat sep ss).

(** [s.split(c)] for a one-character separator: never an empty list. *)
Fixpoint split (c : ascii) (s : string) : list string :=
  match s with
  | EmptyString => [EmptyString]
  | String a s' =>
      if Ascii.eqb a c then EmptyString :: split c s'
      else match split c s' with
           | h :: t => String a h :: t
           | [] => [String a EmptyString]
           end
  end.

End Py.

Definition nl : string := String (ascii_of_nat 10) EmptyString.

(** ** The environment: configuration, inputs and external services *)

(** What [st.file_uploader] hands back: [.name], [.type], [.getvalue()]. *)
Record uploaded_file := {
  file_name : string;
  file_type : string;
  file_value : list Byte.byte
}.

(** The keyword arguments of [client.invoke_model]; [body] is the request
    before [json.dumps]. *)
Record model_request := {
  modelId : string;
  body : pyval;
  contentType : string;
  accept : string
}.

Record datetime := {
  year : N; month : N; day : N;
  hour : N; minute : N; second : N
}.

(** Events a run makes visible, in the order they happen.  The three network
    events are recorded when the call is issued, whatever its outcome.
    [StError prefix (Some e)] is [st.error(f"{prefix}{str(e)}")]. *)
Inductive event :=
  | StError (msg : string) (e : option exn)
  | StSuccess (msg : string)
  | StSpinner (msg : string)
  | StWrite (msg : string)
  | StImage (caption : string)
  | StSubheader (msg : string)
  | StTextArea (label : string) (value : pyval)
  | StMetric (label : string) (value : pyval)
  | S3Upload (bucket : option string) (key : string)
  | TextractDetect (document : pyval)
  | BedrockInvoke (request : model_request).

Record env := {
  (** [os.environ.get("S3_BUCKET")]: [None] when unset *)
  S3_BUCKET : option string;
  AWS_REGION : string;
  (** [clock n] is what the [n]-th call of [time.time()] returns *)
  clock : nat -> Q;
  datetime_now : datetime;
  (** [boto3.client(service, region_name=region)] *)
  boto3_client : string -> string -> outcome unit;
  (** [s3_client.upload_fileobj(file_obj, bucket, key)] *)
  upload_fileobj : uploaded_file -> option string -> string -> outcome unit;
  (** [textract_client.detect_document_text(Document=document)] *)
  detect_document_text : pyval -> outcome pyval;
  (** [json.loads(client.invoke_model(...)['body'].read())]: the call, the
      read and the decoding, any of which may raise *)
  invoke_model : model_request -> outcome pyval;
  (** writing the bytes to a named temporary file; returns its path *)
  tempfile_write : list Byte.byte -> outcome string;
  (** [PdfReader(path).pages]: per page, the outcome of [extract_text()] *)
  PdfReader : string -> outcome (list (outcome string));
  os_unlink : string -> outcome unit
}.

(** The widgets' values in one rendering pass. *)
Record ui_inputs := {
  slider_max_new_tokens : Z;
  slider_temperature : Q;
  slider_top_p : Q;
  slider_top_k : Z;
  file_uploader : option uploaded_file;
  prompt_text_area : string;
  (** what [st.button("Process Document")] returns if it is rendered *)
  button : bool
}.

(** ** The effect monad *)

Record state := { log : list event; ticks : nat }.

Definition M (A : Type) : Type := state -> outcome A * state.

#[export] Instance M_ret : MRet M := fun A a st => (Ok a, st).
#[export] Instance M_bind : MBind M := fun A B k m st =>
  match m st with
  | (Ok a, st') => k a st'
  | (Raise e, st') => (Raise e, st')
  end.

Definition lift {A} (o : outcome A) : M A := fun st => (o, st).

Definition emit (ev : event) : M unit :=
  fun st => (Ok tt, {| log := log st ++ [ev]; ticks := ticks st |}).

(** [try: body / except Exception as e: handler e] *)
Definition try_except {A} (body : M A) (handler : exn -> M A) : M A :=
  fun st =>
    match body st with
    | (Ok a, st') => (Ok a, st')
    | (Raise e, st') => handler e st'
    end.

Definition time_time (e : env) : M Q :=
  fun st => (Ok (clock e (ticks st)), {| log := log st; ticks := S (ticks st) |}).

(** A dict display [{k1: v1, ...}] with distinct keys. *)
Definition dict (items : list (string * pyval)) : gmap string pyval :=
  list_to_map items.

Definition MODEL_ID : string := "amazon.nova-micro-v1:0".

(** ** upload_to_s3 (lines 25-33) *)

Definition upload_to_s3 (e : env) (file_obj : uploaded_file)
    (bucket : option string) (key : string) : M bool :=
  lift (boto3_client e "s3" (AWS_REGION e));;
  try_except
    (emit (S3Upload bucket key);;
     lift (upload_fileobj e file_obj bucket key);;
     mret true)
    (fun ex =>
       emit (StError "Error uploading to S3: " (Some ex));;
       mret false).

(** ** invoke_bedrock_model (lines 35-85) *)

Definition system_text : string :=
  "You are a helpful assistant that analyzes text from scanned documents".

(** Lines 77-81: the text of the first content element, else the empty string. *)
Definition first_content_text (response_body : pyval) : outcome pyval :=
  has_output ← Py.contains "output" response_body;
  if (has_output : bool) then
    output ← Py.getitem response_body "output";
    message ← Py.getitem output "message";
    has_content ← Py.contains "content" message;
    if (has_content : bool) then
      content ← Py.getitem message "content";
      n ← Py.len content;
      if (0 <? n)%nat then
        first ← Py.getitem0 content;
        Py.getitem first "text"
      else Ok (PStr EmptyString)
    else Ok (PStr EmptyString)
  else Ok (PStr EmptyString).

(** Lines 36-65: the request built from the two arguments. *)
Definition request_body (prompt extracted_text : string) : pyval :=
  let system_list := PList [PDict (dict [("text", PStr system_text)])] in
  let message_list :=
    PList [PDict (dict [
      ("role", PStr "user");
      ("content", PList [PDict (dict [
         ("text", PStr (prompt +:+ ":" +:+ nl +:+ nl +:+ extracted_text +:+ nl +:+ nl))])])])] in
  let inf_params :=
    PDict (dict [
      ("max_new_tokens", PInt 1000);
      ("top_p", PFloat (9 # 10));
      ("top_k", PInt 20);
      ("temperature", PFloat (7 # 10))]) in
  PDict (dict [
    ("schemaVersion", PStr "messages-v1");
    ("messages", message_list);
    ("system", system_list);
    ("inferenceConfig", inf_params)]).

(** Lines 68-73: the arguments of the call. *)
Definition model_call (prompt extracted_text : string) : model_request :=
  {| modelId := MODEL_ID;
     body := request_body prompt extracted_text;
     contentType := "application/json";
     accept := "application/json" |}.

Definition invoke_bedrock_model (client : model_request -> outcome pyval)
    (prompt extracted_text : string) : M pyval :=
  try_except
    (emit (BedrockInvoke (model_call prompt extracted_text));;
     response_body ← lift (client (model_call prompt extracted_text));
     lift (first_content_text response_body))
    (fun ex =>
       emit (StError "Error invoking model: " (Some ex));;
       mret (PStr EmptyString)).

(** ** process_document (lines 87-143) *)

(** Lines 118-120: the comprehension, block by block, then the join. *)
Fixpoint block_texts (blocks : list pyval) : outcome (list pyval) :=
  match blocks with
  | [] => Ok []
  | block :: rest =>
      has_text ← Py.contains "Text" block;
      if (has_text : bool) then
        text ← Py.getitem block "Text";
        texts ← block_texts rest;
        Ok (text :: texts)
      else block_texts rest
  end.

Definition extract_text (detect_text_output : pyval) : outcome string :=
  blocks ← Py.getitem detect_text_output "Blocks";
  items ← Py.iter blocks;
  texts ← block_texts items;
  Py.join nl texts.

Definition bucket_value (bucket : option string) : pyval :=
  match bucket with
  | Some b => PStr b
  | None => PNone
  end.

(** Lines 107-112. *)
Definition textract_document (bucket : option string) (s3_key : string)
    : pyval :=
  PDict (dict [
    ("S3Object", PDict (dict [
       ("Bucket", bucket_value bucket);
       ("Name", PStr s3_key)]))]).

Definition empty_result : gmap string pyval :=
  dict [
    ("extracted_text", PStr EmptyString);
    ("analysis_result", PStr EmptyString);
    ("textract_time", PInt 0);
    ("bedrock_time", PInt 0)].

(** The body of the [try] (lines 103-134). *)
Definition process_document_body (e : env) (s3_key custom_prompt : string)
    : M (gmap string pyval) :=
  lift (boto3_client e "textract" (AWS_REGION e));;
  lift (boto3_client e "bedrock-runtime" (AWS_REGION e));;
  let document := textract_document (S3_BUCKET e) s3_key in
  textract_start ← time_time e;
  emit (StSpinner "Processing document with Textract...");;
  emit (TextractDetect document);;
  detect_text_output ← lift (detect_document_text e document);
  extracted_text ← lift (extract_text detect_text_output);
  textract_end ← time_time e;
  let textract_time := (textract_end - textract_start)%Q in
  bedrock_start ← time_time e;
  emit (StSpinner "Analyzing with Bedrock...");;
  analysis_result ← invoke_bedrock_model (invoke_model e) custom_prompt extracted_text;
  bedrock_end ← time_time e;
  let bedrock_time := (bedrock_end - bedrock_start)%Q in
  mret (dict [
    ("extracted_text", PStr extracted_text);
    ("analysis_result", analysis_result);
    ("textract_time", PFloat textract_time);
    ("bedrock_time", PFloat bedrock_time)]).

Definition process_document (e : env) (s3_key custom_prompt : string)
    : M (gmap string pyval) :=
  try_except
    (process_document_body e s3_key custom_prompt)
    (fun ex =>
       emit (StError "Error processing document: " (Some ex));;
       mret empty_result).

(** ** main (lines 145-283) *)

(** [strftime('%Y%m%d_%H%M%S')].  [%Y] is the year in decimal (the C library
    does not pad it); the other fields are two digits, zero padded (each is
    below 100 in a [datetime]). *)
Definition digit (n : N) : ascii := ascii_of_N (48 + n mod 10).

Definition pad2 (n : N) : string :=
  String (digit (n / 10)) (String (digit n) EmptyString).

Definition decimal (n : N) : string :=
  NilEmpty.string_of_uint (N.to_uint n).

Definition strftime (d : datetime) : string :=
  decimal (year d) +:+ pad2 (month d) +:+ pad2 (day d) +:+ "_"
  +:+ pad2 (hour d) +:+ pad2 (minute d) +:+ pad2 (second d).

(** Line 246: [uploaded_file.name.split('.')[-1]]. *)
Definition file_extension (name : string) : string :=
  default EmptyString (last (Py.split "." name)).

(** Line 247. *)
Definition s3_key_of (now : datetime) (name : string) : string :=
  "uploads/" +:+ strftime now +:+ "." +:+ file_extension name.

Definition multi_page_message : string :=
  "Multi-page documents are not supported for this demonstration. Please upload a single-page document.".

(** The body of the [try] of the PDF preview (lines 207-232); its value is
    the new binding of [uploaded_file]. *)
Definition pdf_preview_body (e : env) (f : uploaded_file)
    : M (option uploaded_file) :=
  tmp_file_path ← lift (tempfile_write e (file_value f));
  pages ← lift (PdfReader e tmp_file_path);
  let num_pages := length pages in
  uploaded ←
    (if (1 <? num_pages)%nat then
       emit (StError multi_page_message None);;
       mret None
     else
       emit (StWrite "PDF document preview:");;
       page ← lift (match pages with
                    | page :: _ => Ok page
                    | [] => Raise IndexError
                    end);
       text ← lift page;
       emit (StTextArea "PDF content" (PStr text));;
       mret (Some f));
  lift (os_unlink e tmp_file_path);;
  mret uploaded.

(** The [with col1:] block (lines 186-240); its value is [uploaded_file] as
    the [with col2:] block sees it. *)
Definition col1_block (e : env) (ui : ui_inputs) : M (option uploaded_file) :=
  match file_uploader ui with
  | Some f =>
      if String.eqb (file_type f) "application/pdf" then
        try_except
          (pdf_preview_body e f)
          (fun ex =>
             emit (StError "Error processing PDF: " (Some ex));;
             mret None)
      else if String.prefix "image/" (file_type f) then
        emit (StWrite "Image preview:");;
        emit (StImage "Preview of uploaded document");;
        mret (Some f)
      else mret (Some f)
  | None => mret None
  end.

(** The [with col2:] block (lines 242-283).  The metrics show the values
    with two decimals; the event carries the value itself. *)
Definition col2_block (e : env) (ui : ui_inputs)
    (uploaded : option uploaded_file) : M unit :=
  match uploaded with
  | Some f =>
      if button ui then
        total_start ← time_time e;
        let s3_key := s3_key_of (datetime_now e) (file_name f) in
        emit (StSpinner "Uploading file to S3...");;
        uploaded_ok ← upload_to_s3 e f (S3_BUCKET e) s3_key;
        if (uploaded_ok : bool) then
          emit (StSuccess "File uploaded successfully!");;
          result ← process_document e s3_key (prompt_text_area ui);
          total_end ← time_time e;
          let total_time := (total_end - total_start)%Q in
          textract_time ← lift (Py.getitem (PDict result) "textract_time");
          emit (StMetric "Textract Processing Time" textract_time);;
          bedrock_time ← lift (Py.getitem (PDict result) "bedrock_time");
          emit (StMetric "Bedrock Analysis Time" bedrock_time);;
          emit (StMetric "Total Processing Time" (PFloat total_time));;
          emit (StSubheader "Extracted Text");;
          extracted_text ← lift (Py.getitem (PDict result) "extracted_text");
          emit (StTextArea "Text extracted from document" extracted_text);;
          emit (StSubheader "Analysis Result");;
          analysis_result ← lift (Py.getitem (PDict result) "analysis_result");
          emit (StTextArea "AI analysis results" analysis_result)
        else
          emit (StError "Failed to upload file" None)
      else mret tt
  | None => mret tt
  end.

(** The sliders are read into four locals (lines 157-184) that nothing
    below uses; they are bound here as the source binds them. *)
Definition main (e : env) (ui : ui_inputs) : M unit :=
  let max_new_tokens := slider_max_new_tokens ui in
  let temperature := slider_temperature ui in
  let top_p := slider_top_p ui in
  let top_k := slider_top_k ui in
  uploaded ← col1_block e ui;
  col2_block e ui uploaded.


(** ** Module level (lines 14-23) and the script as a whole (lines 285-286)

    [environ] is the process environment after [load_dotenv()].  Streamlit
    runs the script from the top on every interaction: the module-level
    statements, then [main()]. *)





(** ** Vocabulary of the statements *)

(** The text fragment a block carries, if it has a text field. *)
Definition text_field (block : gmap string pyval) : option string :=
  match block !! "Text" with
  | Some (PStr s) => Some s
  | _ => None
  end.

Definition carries_text (block : gmap string pyval) : Prop :=
  is_Some (block !! "Text").

(** The fragment of a block that carries one. *)
Definition the_text (block : gmap string pyval) : string :=
  default EmptyString (text_field block).

(** Text fields are strings, as the service documents them. *)
Definition text_typed (blocks : list (gmap string pyval)) : Prop :=
  ∀ block v, block ∈ blocks → block !! "Text" = Some v → ∃ s, v = PStr s.

(** An OCR response with the given blocks, whatever else it carries. *)
Definition ocr_response (other : gmap string pyval)
    (blocks : list (gmap string pyval)) : pyval :=
  PDict (<["Blocks" := PList (PDict <$> blocks)]> other).

(** The response shape the client reads: output, message and content
    present, and a first content element with a text. *)
Definition expected_structure (response_body : pyval) : Prop :=
  ∃ d o m c rest,
    response_body = PDict d
    ∧ d !! "output" = Some (PDict o)
    ∧ o !! "message" = Some (PDict m)
    ∧ m !! "content" = Some (PList (PDict c :: rest))
    ∧ is_Some (c !! "text").

(** The three shapes the specification names. *)
Definition no_output_key : pyval := PDict ∅.

Definition no_content_key : pyval :=
  PDict (dict [("output", PDict (dict [("message", PDict ∅)]))]).

Definition empty_content : pyval :=
  PDict (dict [("output", PDict (dict [("message",
    PDict (dict [("content", PList [])]))]))]).

(** Which events are calls to the three services. *)
Definition is_storage_call (ev : event) : bool :=
  match ev with S3Upload _ _ => true | _ => false end.

Definition is_ocr_call (ev : event) : bool :=
  match ev with TextractDetect _ => true | _ => false end.

Definition is_inference_call (ev : event) : bool :=
  match ev with BedrockInvoke _ => true | _ => false end.

Definition is_network_call (ev : event) : bool :=
  is_storage_call ev || is_ocr_call ev || is_inference_call ev.

(** [emits P m]: from any state, [m] only appends events to the log, and
    each appended event satisfies [P]. *)
Definition emits {A} (P : event → Prop) (m : M A) : Prop :=
  ∀ st, ∃ evs, log (m st).2 = (log st ++ evs)%list ∧ Forall P evs.

(** The Object Store Client reports its failure signal: it returns [False]. *)
Definition upload_reports_failure (e : env) (f : uploaded_file) (key : string)
    : Prop :=
  ∀ st, (upload_to_s3 e f (S3_BUCKET e) key st).1 = Ok false.

(** ** The shape of a storage key *)

Definition is_digit (a : ascii) : bool :=
  (48 <=? N_of_ascii a)%N && (N_of_ascii a <=? 57)%N.

(** [n] decimal digits, then whatever [rest] accepts. *)
Fixpoint digits_then (n : nat) (rest : string → bool) (s : string) : bool :=
  match n with
  | O => rest s
  | S n' =>
      match s with
      | String a s' => is_digit a && digits_then n' rest s'
      | EmptyString => false
      end
  end.

Definition is_empty_string (s : string) : bool :=
  match s with EmptyString => true | _ => false end.

(** YYYYMMDD_HHMMSS: eight digits, an underscore, six digits. *)
Definition timestamp_shape (ts : string) : bool :=
  digits_then 8
    (fun s =>
       match s with
       | String a s' => Ascii.eqb a "_" && digits_then 6 is_empty_string s'
       | EmptyString => false
       end)
    ts.

Fixpoint dot_free (s : string) : bool :=
  match s with
  | EmptyString => true
  | String a s' => negb (Ascii.eqb a ".") && dot_free s'
  end.

(** [uploads/{YYYYMMDD_HHMMSS}.{ext}] *)
Definition key_pattern (ext key : string) : Prop :=
  ∃ ts, timestamp_shape ts = true ∧ key = "uploads/" +:+ ts +:+ "." +:+ ext.

(** The clock shows a year of four digits. *)
Definition four_digit_year (d : datetime) : Prop :=
  (1000 ≤ year d ≤ 9999)%N.

Definition four_digits (s : string) : bool :=
  digits_then 4 is_empty_string s.

(** ** The result of process_document *)

Definition result_keys : gset string :=
  {[ "extracted_text"; "analysis_result"; "textract_time"; "bedrock_time" ]}.

Definition nonneg (v : pyval) : Prop :=
  match v with
  | PInt z => (0 ≤ z)%Z
  | PFloat q => (0 <= q)%Q
  | _ => False
  end.

Definition timings_nonneg (result : gmap string pyval) : Prop :=
  ∃ t b, result !! "textract_time" = Some t
       ∧ result !! "bedrock_time" = Some b
       ∧ nonneg t ∧ nonneg b.

(** The wall clock does not run backwards from one reading to the next. *)
Definition clock_never_back (e : env) : Prop :=
  ∀ n, (clock e n <= clock e (S n))%Q.

(** What the OCR stage yields for a stored object: the outcome of building
    the clients, calling the service and joining the blocks. *)
Definition ocr_text (e : env) (s3_key : string) : outcome string :=
  boto3_client e "textract" (AWS_REGION e);;
  boto3_client e "bedrock-runtime" (AWS_REGION e);;
  detect_text_output ←
    detect_document_text e (textract_document (S3_BUCKET e) s3_key);
  extract_text detect_text_output.

(** Two environments with the same configuration and the same OCR service;
    clock, model service and everything else may differ. *)
Definition same_ocr_service (e1 e2 : env) : Prop :=
  S3_BUCKET e1 = S3_BUCKET e2
  ∧ AWS_REGION e1 = AWS_REGION e2
  ∧ boto3_client e1 = boto3_client e2
  ∧ detect_document_text e1 = detect_document_text e2.

(** ** The model request *)

Definition request_of (ev : event) : option model_request :=
  match ev with
  | BedrockInvoke request => Some request
  | _ => None
  end.

Definition inference_config (request : model_request) : outcome pyval :=
  Py.getitem (body request) "inferenceConfig".

(** The sampling configuration the sliders show. *)
Definition slider_config (ui : ui_inputs) : pyval :=
  PDict (dict [
    ("max_new_tokens", PInt (slider_max_new_tokens ui));
    ("top_p", PFloat (slider_top_p ui));
    ("top_k", PInt (slider_top_k ui));
    ("temperature", PFloat (slider_temperature ui))]).

(** The sampling configuration written in invoke_bedrock_model. *)
Definition fixed_config : pyval :=
  PDict (dict [
    ("max_new_tokens", PInt 1000);
    ("top_p", PFloat (9 # 10));
    ("top_k", PInt 20);
    ("temperature", PFloat (7 # 10))]).

(** ** The calls a run is expected to make *)

(** The service calls of process_document, in order: none if a client
    cannot be built, else the OCR call, followed by the inference call on
    the extracted text if the OCR stage yields one. *)
Definition process_document_calls (e : env) (s3_key custom_prompt : string)
    : list event :=
  match boto3_client e "textract" (AWS_REGION e);;
        boto3_client e "bedrock-runtime" (AWS_REGION e) with
  | Raise _ => []
  | Ok _ =>
      TextractDetect (textract_document (S3_BUCKET e) s3_key)
      :: match ocr_text e s3_key with
         | Ok text => [BedrockInvoke (model_call custom_prompt text)]
         | Raise _ => []
         end
  end.

(** The service calls of a whole run on an accepted file with the button
    pressed: none if the S3 client cannot be built, else the upload,
    followed by the calls of process_document if the upload returned. *)
Definition main_calls (e : env) (ui : ui_inputs) (f : uploaded_file)
    : list event :=
  let key := s3_key_of (datetime_now e) (file_name f) in
  match boto3_client e "s3" (AWS_REGION e) with
  | Raise _ => []
  | Ok _ =>
      S3Upload (S3_BUCKET e) key
      :: match upload_fileobj e f (S3_BUCKET e) key with
         | Ok _ => process_document_calls e key (prompt_text_area ui)
         | Raise _ => []
         end
  end.

(** The state in which process_document starts, from the state the preview
    block left. *)
Definition after_upload (e : env) (f : uploaded_file) (st : state) : state :=
  {| log := log st ++ [
       StSpinner "Uploading file to S3...";
       S3Upload (S3_BUCKET e) (s3_key_of (datetime_now e) (file_name f));
       StSuccess "File uploaded successfully!"];
     ticks := S (ticks st) |}.

(** What is shown for a result: three metrics and two text areas. *)
Definition results_shown (x a t b : pyval) (total_time : Q) : list event :=
  [ StMetric "Textract Processing Time" t;
    StMetric "Bedrock Analysis Time" b;
    StMetric "Total Processing Time" (PFloat total_time);
    StSubheader "Extracted Text";
    StTextArea "Text extracted from document" x;
    StSubheader "Analysis Result";
    StTextArea "AI analysis results" a ].


(** Some block carries a text field that is not a string. *)
Definition ill_typed_text (blocks : list (gmap string pyval)) : Prop :=
  ∃ block v, block ∈ blocks ∧ block !! "Text" = Some v ∧ ∀ s, v ≠ PStr s.

(** ** Reading a timestamp back *)

(** A date and time of day as [datetime.now()] returns them, with a year of
    four digits. *)
Definition calendar (d : datetime) : Prop :=
  (1000 ≤ year d ≤ 9999 ∧ 1 ≤ month d ≤ 12 ∧ 1 ≤ day d ≤ 31
   ∧ hour d ≤ 23 ∧ minute d ≤ 59 ∧ second d ≤ 59)%N.

(** Read [n] decimal digits off the front of a string. *)
Fixpoint read_digits (n : nat) (acc : N) (s : string) : option (N * string) :=
  match n with
  | O => Some (acc, s)
  | S n' =>
      match s with
      | String a s' =>
          if is_digit a
          then read_digits n' (10 * acc + (N_of_ascii a - 48)) s'
          else None
      | EmptyString => None
      end
  end.

(** The inverse of [strftime] on the front of a string. *)
Definition strptime (s : string) : option (datetime * string) :=
  '(y, s) ← read_digits 4 0 s;
  '(m, s) ← read_digits 2 0 s;
  '(d, s) ← read_digits 2 0 s;
  match s with
  | String a s =>
      if Ascii.eqb a "_" then
        '(hh, s) ← read_digits 2 0 s;
        '(mm, s) ← read_digits 2 0 s;
        '(ss, s) ← read_digits 2 0 s;
        Some ({| year := y; month := m; day := d;
                 hour := hh; minute := mm; second := ss |}, s)
      else None
  | EmptyString => None
  end.

(** ** Sample runs

    Concrete environments and inputs on which the statements below are
    exercised. *)

Definition sample_now : datetime :=
  {| year := 2024; month := 3; day := 7; hour := 9; minute := 5; second := 0 |}.

(** A Textract answer: a PAGE block without text and two LINE blocks. *)
Definition sample_blocks : list (gmap string pyval) :=
  [ dict [("BlockType", PStr "PAGE")];
    dict [("BlockType", PStr "LINE"); ("Text", PStr "NaCl 20 C")];
    dict [("BlockType", PStr "LINE"); ("Text", PStr "heated 5 min")] ].

Definition sample_ocr_response : pyval :=
  ocr_response (dict [("DetectDocumentTextModelVersion", PStr "1.0")])
    sample_blocks.

Definition sample_model_response : pyval :=
  PDict (dict [("output", PDict (dict [("message", PDict (dict [
    ("role", PStr "assistant");
    ("content", PList [PDict (dict [("text", PStr "NaCl,20,,5")])])]))]))]).

(** An environment whose services answer as given, whatever they are asked. *)
Definition mk_env (readings : nat → Q) (upload : outcome unit)
    (ocr model : outcome pyval) (pdf : outcome (list (outcome string))) : env :=
  {| S3_BUCKET := Some "documents";
     AWS_REGION := "us-east-1";
     clock := readings;
     datetime_now := sample_now;
     boto3_client := fun _ _ => Ok tt;
     upload_fileobj := fun _ _ _ => upload;
     detect_document_text := fun _ => ocr;
     invoke_model := fun _ => model;
     tempfile_write := fun _ => Ok "/tmp/tmpab12.pdf";
     PdfReader := fun _ => pdf;
     os_unlink := fun _ => Ok tt |}.

Definition steady_clock (n : nat) : Q := inject_Z (1700000000 + Z.of_nat n).

(** Every service answers; the PDF has one page. *)
Definition sample_env : env :=
  mk_env steady_clock (Ok tt) (Ok sample_ocr_response)
    (Ok sample_model_response) (Ok [Ok "NaCl 20 C"]).

Definition sample_pdf : uploaded_file :=
  {| file_name := "lab.notes.pdf"; file_type := "application/pdf";
     file_value := [] |}.

Definition sample_image : uploaded_file :=
  {| file_name := "scan.jpeg"; file_type := "image/jpeg"; file_value := [] |}.

Definition sample_ui (f : uploaded_file) : ui_inputs :=
  {| slider_max_new_tokens := 1000;
     slider_temperature := 7 # 10;
     slider_top_p := 9 # 10;
     slider_top_k := 20;
     file_uploader := Some f;
     prompt_text_area := "Output only the CSV record.";
     button := true |}.

Definition initial_state : state := {| log := []; ticks := 0 |}.

(** A three-page PDF. *)
Definition three_page_env : env :=
  mk_env steady_clock (Ok tt) (Ok sample_ocr_response)
    (Ok sample_model_response) (Ok [Ok "one"; Ok "two"; Ok "three"]).

(** A file the PDF library cannot parse. *)
Definition corrupt_pdf_env : env :=
  mk_env steady_clock (Ok tt) (Ok sample_ocr_response)
    (Ok sample_model_response) (Raise (ServiceError "EOF marker not found")).

(** The bucket refuses the upload. *)
Definition upload_denied_env : env :=
  mk_env steady_clock (Raise (ServiceError "AccessDenied"))
    (Ok sample_ocr_response) (Ok sample_model_response) (Ok [Ok "NaCl 20 C"]).

(** Textract raises. *)
Definition ocr_down_env : env :=
  mk_env steady_clock (Ok tt) (Raise (ServiceError "UnsupportedDocumentException"))
    (Ok sample_model_response) (Ok [Ok "NaCl 20 C"]).

(** A clock set back between readings: 10, 9, 8, ... *)
Definition backward_clock (n : nat) : Q := inject_Z (10 - Z.of_nat n).

Definition backward_clock_env : env :=
  mk_env backward_clock (Ok tt) (Ok sample_ocr_response)
    (Ok sample_model_response) (Ok [Ok "NaCl 20 C"]).

(** The model service is down and the clock differs. *)
Definition model_down_env : env :=
  mk_env backward_clock (Ok tt) (Ok sample_ocr_response)
    (Raise (ServiceError "ThrottlingException")) (Ok [Ok "NaCl 20 C"]).

(** Every slider moved away from its default. *)
Definition tuned_ui : ui_inputs :=
  {| slider_max_new_tokens := 500;
     slider_temperature := 1 # 10;
     slider_top_p := 5 # 10;
     slider_top_k := 3;
     file_uploader := Some sample_image;
     prompt_text_area := "Output only the CSV record.";
     button := true |}.

Definition sample_key : string := "uploads/20240307_090500.jpeg".

(** * Properties *)

(** Unfold the monad's operations and reduce the matches they expose; no
    constant of the program is unfolded. *)
Ltac unfold_M :=
  unfold mbind, M_bind, mret, M_ret, outcome_bind, outcome_ret,
    emit, lift, try_except, time_time in *;
  cbn [log ticks fst snd] in *.

(** ** Text extraction (lines 117-120) *)

Section Extraction.

Lemma strs_PStr (ss : list string) : Py.strs (PStr <$> ss) = Ok ss.
Proof.
  induction ss as [|s ss IH]; [done|].
  rewrite fmap_cons. cbn [Py.strs]. rewrite IH. done.
Qed.

Lemma text_typed_cons block blocks :
  text_typed (block :: blocks) → text_typed blocks.
Proof. intros H b v Hb. apply H. by right. Qed.

Lemma block_texts_typed (blocks : list (gmap string pyval)) :
  text_typed blocks →
  block_texts (PDict <$> blocks) = Ok (PStr <$> omap text_field blocks).
Proof.
  induction blocks as [|block blocks IH]; intros Hty; [done|].
  specialize (IH (text_typed_cons _ _ Hty)).
  cbn [fmap list_fmap block_texts omap list_omap].
  unfold text_field at 1. cbn [Py.contains mbind outcome_bind Py.getitem].
  destruct (block !! "Text") as [v|] eqn:Hv.
  - destruct (Hty block v) as [s ->]; [by left|done|].
    rewrite bool_decide_true by eauto.
    fold (omap text_field blocks). rewrite IH. done.
  - rewrite bool_decide_false by (intros [? ?]; done).
    exact IH.
Qed.

Lemma fragments_filter (blocks : list (gmap string pyval)) :
  text_typed blocks →
  omap text_field blocks = the_text <$> filter carries_text blocks.
Proof.
  induction blocks as [|block blocks IH]; intros Hty; [done|].
  specialize (IH (text_typed_cons _ _ Hty)).
  cbn [omap list_omap]. rewrite filter_cons.
  destruct (decide (carries_text block)) as [[v Hv]|Hn].
  - destruct (Hty block v) as [s ->]; [by left|done|].
    rewrite fmap_cons, <- IH. unfold the_text, text_field. by rewrite Hv.
  - unfold text_field at 1.
    destruct (block !! "Text") as [v|] eqn:Hv; [|exact IH].
    exfalso. apply Hn. unfold carries_text. rewrite Hv. eauto.
Qed.

Lemma extract_text_typed other (blocks : list (gmap string pyval)) :
  text_typed blocks →
  extract_text (ocr_response other blocks)
  = Ok (String.concat nl (the_text <$> filter carries_text blocks)).
Proof.
  intros Hty. unfold extract_text, ocr_response.
  cbn [Py.getitem]. rewrite lookup_insert_eq.
  cbn [mbind outcome_bind Py.iter].
  rewrite (block_texts_typed _ Hty).
  cbn [mbind outcome_bind]. unfold Py.join. rewrite strs_PStr.
  cbn [mbind outcome_bind]. by rewrite fragments_filter.
Qed.

(** C3. For an OCR response of N blocks of which K carry a text field, the
    extracted text is the newline-join of exactly those K fragments, in the
    order of the response (K <= N); when no block carries a text field the
    result is the empty string and not an exception. *)
Theorem C3_extracted_text_is_join other (blocks : list (gmap string pyval)) :
  text_typed blocks →
  let carrying := filter carries_text blocks in
  extract_text (ocr_response other blocks)
  = Ok (String.concat nl (the_text <$> carrying))
  ∧ (length carrying ≤ length blocks)%nat
  ∧ (carrying = [] → extract_text (ocr_response other blocks) = Ok EmptyString).
Proof.
  intros Hty carrying. split; [|split].
  - by apply extract_text_typed.
  - apply length_filter.
  - intros Hnone. rewrite (extract_text_typed _ _ Hty).
    fold carrying. by rewrite Hnone.
Qed.

End Extraction.

(** ** Reading the model response (lines 67-85) *)

Section Response.

Lemma getitem_Ok v k x :
  Py.getitem v k = Ok x → ∃ d, v = PDict d ∧ d !! k = Some x.
Proof.
  destruct v as [| | | | |l|d]; try discriminate. cbn.
  destruct (d !! k) as [y|] eqn:Hy; [|discriminate].
  intros [= ->]. eauto.
Qed.

Lemma getitem0_Ok_dict v c :
  Py.getitem0 v = Ok (PDict c) → ∃ rest, v = PList (PDict c :: rest).
Proof.
  destruct v as [| | | |s|l|d]; try discriminate.
  - destruct s; discriminate.
  - destruct l as [|x rest]; [discriminate|]. intros [= ->]. eauto.
Qed.

(** Whatever the response, a returned value other than the empty string was read from
    the expected structure. *)
Lemma first_content_text_Ok response_body v :
  first_content_text response_body = Ok v →
  v = PStr EmptyString ∨ expected_structure response_body.
Proof.
  unfold first_content_text.
  destruct (Py.contains "output" response_body) as [[|]|] eqn:Hout;
    cbn [mbind outcome_bind]; [|intros [= <-]; by left|discriminate].
  destruct (Py.getitem response_body "output") as [output|] eqn:Ho;
    cbn [mbind outcome_bind]; [|discriminate].
  destruct (Py.getitem output "message") as [message|] eqn:Hm;
    cbn [mbind outcome_bind]; [|discriminate].
  destruct (Py.contains "content" message) as [[|]|] eqn:Hc;
    cbn [mbind outcome_bind]; [|intros [= <-]; by left|discriminate].
  destruct (Py.getitem message "content") as [content|] eqn:Hcontent;
    cbn [mbind outcome_bind]; [|discriminate].
  destruct (Py.len content) as [n|]; cbn [mbind outcome_bind]; [|discriminate].
  destruct (0 <? n)%nat; [|intros [= <-]; by left].
  destruct (Py.getitem0 content) as [first|] eqn:Hfirst;
    cbn [mbind outcome_bind]; [|discriminate].
  intros Htext. right.
  apply getitem_Ok in Ho as (d & -> & Hd).
  apply getitem_Ok in Hm as (o & -> & Hmsg).
  apply getitem_Ok in Hcontent as (m & -> & Hcont).
  apply getitem_Ok in Htext as (c & -> & Hctext).
  apply getitem0_Ok_dict in Hfirst as (rest & ->).
  exists d, o, m, c, rest. eauto 10.
Qed.

(** The try/except of the client turns every outcome into a value. *)
Lemma invoke_bedrock_model_value client prompt extracted_text st :
  (invoke_bedrock_model client prompt extracted_text st).1
  = Ok (match client (model_call prompt extracted_text)
                ≫= first_content_text with
        | Ok v => v
        | Raise _ => PStr EmptyString
        end).
Proof.
  unfold invoke_bedrock_model. unfold_M.
  destruct (client (model_call prompt extracted_text)) as [response_body|ex];
    [|done].
  by destruct (first_content_text response_body).
Qed.

(** C4. When the response lacks the expected output/message/content
    structure, the client returns the empty string; it returns, so no
    exception escapes it. *)
Theorem C4_missing_structure_gives_empty client prompt extracted_text st
    response_body :
  client (model_call prompt extracted_text) = Ok response_body →
  ¬ expected_structure response_body →
  (invoke_bedrock_model client prompt extracted_text st).1 = Ok (PStr EmptyString).
Proof.
  intros Hresp Hmissing. rewrite invoke_bedrock_model_value, Hresp.
  cbn [mbind outcome_bind].
  destruct (first_content_text response_body) as [v|ex] eqn:Hv; [|done].
  by destruct (first_content_text_Ok _ _ Hv) as [->|?].
Qed.

End Response.

(** ** What a computation appends to the log *)

Section Emits.

Context {A B : Type} (P : event → Prop).

Lemma emits_ret (a : A) : emits P (mret a).
Proof. intros st. exists []. unfold_M. by rewrite app_nil_r. Qed.

Lemma emits_lift (o : outcome A) : emits P (lift o).
Proof. intros st. exists []. unfold_M. by rewrite app_nil_r. Qed.

Lemma emits_time e : emits P (time_time e).
Proof. intros st. exists []. unfold_M. by rewrite app_nil_r. Qed.

Lemma emits_emit ev : P ev → emits P (emit ev).
Proof. intros Hev st. exists [ev]. unfold_M. split; [done|]. by constructor. Qed.

Lemma emits_bind (m : M A) (k : A → M B) :
  emits P m → (∀ a, emits P (k a)) → emits P (m ≫= k).
Proof.
  intros Hm Hk st. destruct (Hm st) as (evs & Hlog & Hevs).
  unfold mbind, M_bind. destruct (m st) as [[a|ex] st1]; cbn [snd] in *.
  - destruct (Hk a st1) as (evs' & Hlog' & Hevs').
    exists (evs ++ evs')%list. rewrite Hlog', Hlog, app_assoc.
    split; [done|]. by apply Forall_app.
  - by exists evs.
Qed.

Lemma emits_try (body : M A) (handler : exn → M A) :
  emits P body → (∀ ex, emits P (handler ex)) → emits P (try_except body handler).
Proof.
  intros Hm Hk st. destruct (Hm st) as (evs & Hlog & Hevs).
  unfold try_except. destruct (body st) as [[a|ex] st1]; cbn [snd] in *.
  - by exists evs.
  - destruct (Hk ex st1) as (evs' & Hlog' & Hevs').
    exists (evs ++ evs')%list. rewrite Hlog', Hlog, app_assoc.
    split; [done|]. by apply Forall_app.
Qed.

Lemma emits_weaken (Q : event → Prop) (m : M A) :
  (∀ ev, P ev → Q ev) → emits P m → emits Q m.
Proof.
  intros HPQ Hm st. destruct (Hm st) as (evs & Hlog & Hevs).
  exists evs. split; [done|]. eapply Forall_impl; eauto.
Qed.

End Emits.

(** Decompose an [emits] goal along the structure of the computation. *)
Ltac emits_step :=
  first
    [ apply emits_ret
    | apply emits_lift
    | apply emits_time
    | apply emits_emit
    | apply emits_bind; [|intros ?]
    | apply emits_try; [|intros ?] ].

Lemma emits_invoke_bedrock_model (P : event → Prop) client prompt text :
  (∀ req, P (BedrockInvoke req)) → (∀ msg ex, P (StError msg ex)) →
  emits P (invoke_bedrock_model client prompt text).
Proof.
  intros Hcall Herr. unfold invoke_bedrock_model.
  repeat emits_step; auto.
Qed.

Lemma emits_process_document (P : event → Prop) e key prompt :
  (∀ doc, P (TextractDetect doc)) → (∀ req, P (BedrockInvoke req)) →
  (∀ msg ex, P (StError msg ex)) → (∀ msg, P (StSpinner msg)) →
  emits P (process_document e key prompt).
Proof.
  intros Hocr Hcall Herr Hspin.
  unfold process_document, process_document_body.
  repeat first [apply emits_invoke_bedrock_model | emits_step]; auto.
Qed.

Lemma emits_col1_block e ui :
  emits (fun ev => is_network_call ev = false) (col1_block e ui).
Proof.
  unfold col1_block, pdf_preview_body.
  destruct (file_uploader ui) as [f|]; [|emits_step].
  destruct (String.eqb _ _); [|destruct (String.prefix _ _)];
    repeat first [emits_step | match goal with |- emits _ (if ?c then _ else _) => destruct c end]; done.
Qed.

(** ** The page: preview, rejection, upload (lines 186-283) *)

Section Page.

Lemma emits_pdf_preview_body e f :
  emits (fun ev => is_network_call ev = false) (pdf_preview_body e f).
Proof.
  unfold pdf_preview_body.
  repeat first [emits_step | match goal with |- emits _ (if ?c then _ else _) => destruct c end]; done.
Qed.

(** With the selection cleared, the [with col2:] block does nothing. *)
Lemma main_cleared e ui st :
  (col1_block e ui st).1 = Ok None →
  main e ui st = (Ok tt, (col1_block e ui st).2).
Proof.
  unfold main. unfold_M.
  destruct (col1_block e ui st) as [[[f|]|ex] st1]; cbn [fst snd]; done.
Qed.

(** The file the second block sees, if any, is the one selected. *)
Lemma col1_block_accepts e ui st f :
  (col1_block e ui st).1 = Ok (Some f) → file_uploader ui = Some f.
Proof.
  unfold col1_block, pdf_preview_body.
  destruct (file_uploader ui) as [g|]; [|by unfold_M].
  destruct (String.eqb _ _); [|destruct (String.prefix _ _); unfold_M; congruence].
  unfold_M.
  destruct (tempfile_write e (file_value g)) as [path|]; [|done].
  destruct (PdfReader e path) as [pages|]; [|done].
  destruct (1 <? length pages)%nat.
  - by destruct (os_unlink e path).
  - destruct pages as [|[text|] pages]; [done| |done].
    destruct (os_unlink e path); cbn; congruence.
Qed.

(** C5. A PDF of more than one page is rejected with a visible error and
    the selection is cleared; the run makes no storage, OCR or inference
    call. *)
Theorem C5_multi_page_pdf_rejected e ui st f path pages :
  file_uploader ui = Some f →
  file_type f = "application/pdf" →
  tempfile_write e (file_value f) = Ok path →
  PdfReader e path = Ok pages →
  (1 < length pages)%nat →
  (col1_block e ui st).1 = Ok None
  ∧ ∃ evs, log (main e ui st).2 = (log st ++ evs)%list
      ∧ StError multi_page_message None ∈ evs
      ∧ Forall (fun ev => is_network_call ev = false) evs.
Proof.
  intros Hsel Htype Htmp Hpdf Hlen.
  assert (Hcol1 : (col1_block e ui st).1 = Ok None
            ∧ ∃ evs, log (col1_block e ui st).2 = (log st ++ evs)%list
                ∧ StError multi_page_message None ∈ evs).
  { unfold col1_block, pdf_preview_body.
    rewrite Hsel, Htype, String.eqb_refl. unfold_M.
    rewrite Htmp, Hpdf. apply Nat.ltb_lt in Hlen as ->.
    destruct (os_unlink e path) as [[]|ex]; cbn [fst snd log].
    - split; [done|]. eexists. split; [done|]. by left.
    - split; [done|]. eexists. split; [by rewrite <- app_assoc|]. by left. }
  destruct Hcol1 as (Hnone & evs & Hlog & Herr). split; [done|].
  rewrite (main_cleared _ _ _ Hnone). cbn [snd].
  destruct (emits_col1_block e ui st) as (evs' & Hlog' & Hlocal).
  rewrite Hlog in Hlog'. apply app_inv_head in Hlog' as <-.
  by exists evs.
Qed.

Lemma C5_multi_page_pdf_rejected_witness :
  (col1_block three_page_env (sample_ui sample_pdf) initial_state).1 = Ok None
  ∧ ∃ evs,
      log (main three_page_env (sample_ui sample_pdf) initial_state).2
      = (log initial_state ++ evs)%list
      ∧ StError multi_page_message None ∈ evs
      ∧ Forall (fun ev => is_network_call ev = false) evs.
Proof.
  apply (C5_multi_page_pdf_rejected three_page_env (sample_ui sample_pdf)
           initial_state sample_pdf "/tmp/tmpab12.pdf"
           [Ok "one"; Ok "two"; Ok "three"]);
    first [reflexivity | simpl; lia].
Defined.

(** C10. When the page-count validation of a PDF raises, whatever the
    cause, the error is reported and the selection is cleared; the run makes
    no storage, OCR or inference call. *)
Theorem C10_pdf_validation_failure e ui st f ex :
  file_uploader ui = Some f →
  file_type f = "application/pdf" →
  (pdf_preview_body e f st).1 = Raise ex →
  (col1_block e ui st).1 = Ok None
  ∧ ∃ evs, log (main e ui st).2 = (log st ++ evs)%list
      ∧ StError "Error processing PDF: " (Some ex) ∈ evs
      ∧ Forall (fun ev => is_network_call ev = false) evs.
Proof.
  intros Hsel Htype Hraise.
  assert (Hcol1 : (col1_block e ui st).1 = Ok None
            ∧ ∃ evs, log (col1_block e ui st).2 = (log st ++ evs)%list
                ∧ StError "Error processing PDF: " (Some ex) ∈ evs).
  { unfold col1_block. rewrite Hsel, Htype, String.eqb_refl.
    destruct (emits_pdf_preview_body e f st) as (evs0 & Hlog0 & _).
    unfold try_except.
    destruct (pdf_preview_body e f st) as [[o|ex'] st1]; [done|].
    cbn [fst snd] in *. injection Hraise as ->. unfold_M.
    split; [done|]. exists (evs0 ++ [StError "Error processing PDF: " (Some ex)])%list.
    rewrite Hlog0, app_assoc. split; [done|].
    apply elem_of_app. right. by left. }
  destruct Hcol1 as (Hnone & evs & Hlog & Herr). split; [done|].
  rewrite (main_cleared _ _ _ Hnone). cbn [snd].
  destruct (emits_col1_block e ui st) as (evs' & Hlog' & Hlocal).
  rewrite Hlog in Hlog'. apply app_inv_head in Hlog' as <-.
  by exists evs.
Qed.

Lemma C10_pdf_validation_failure_witness :
  (col1_block corrupt_pdf_env (sample_ui sample_pdf) initial_state).1 = Ok None
  ∧ ∃ evs,
      log (main corrupt_pdf_env (sample_ui sample_pdf) initial_state).2
      = (log initial_state ++ evs)%list
      ∧ StError "Error processing PDF: "
          (Some (ServiceError "EOF marker not found")) ∈ evs
      ∧ Forall (fun ev => is_network_call ev = false) evs.
Proof.
  apply (C10_pdf_validation_failure corrupt_pdf_env (sample_ui sample_pdf)
           initial_state sample_pdf); reflexivity.
Defined.

End Page.

(** ** The upload and what follows it (lines 242-283) *)

Section Upload.

(** The failure signal is exactly: the client was built and the upload
    raised; both the call and the error it raised are in the log. *)
Lemma upload_to_s3_false e f bucket key st :
  (upload_to_s3 e f bucket key st).1 = Ok false →
  ∃ ex, upload_fileobj e f bucket key = Raise ex
    ∧ upload_to_s3 e f bucket key st
      = (Ok false,
         {| log := log st ++ [S3Upload bucket key;
                              StError "Error uploading to S3: " (Some ex)];
            ticks := ticks st |}).
Proof.
  unfold upload_to_s3. unfold_M.
  destruct (boto3_client e "s3" (AWS_REGION e)); [|done].
  destruct (upload_fileobj e f bucket key) as [|ex]; [done|].
  intros _. exists ex. cbn [log ticks]. by rewrite <- app_assoc.
Qed.

(** C6. When the upload fails (the Object Store Client returns its failure
    signal), the errors are shown and the run stops there: no OCR call and
    no inference call is made. *)
Theorem C6_upload_failure_halts e ui st f :
  (col1_block e ui st).1 = Ok (Some f) →
  button ui = true →
  upload_reports_failure e f (s3_key_of (datetime_now e) (file_name f)) →
  ∃ evs, log (main e ui st).2 = (log st ++ evs)%list
    ∧ StError "Failed to upload file" None ∈ evs
    ∧ (∃ ex, StError "Error uploading to S3: " (Some ex) ∈ evs)
    ∧ Forall (fun ev => is_ocr_call ev = false ∧ is_inference_call ev = false) evs.
Proof.
  intros Hacc Hbutton Hfail.
  destruct (emits_col1_block e ui st) as (evs1 & Hlog1 & Hlocal).
  unfold main, mbind at 1, M_bind at 1.
  destruct (col1_block e ui st) as [[sel|ex1] st1]; [|done].
  cbn [fst snd] in *. injection Hacc as ->.
  unfold col2_block. rewrite Hbutton.
  unfold mbind at 1, M_bind at 1, time_time at 1.
  unfold mbind at 1, M_bind at 1, emit at 1.
  unfold mbind at 1, M_bind at 1.
  match goal with |- context [upload_to_s3 e f ?b ?k ?s] =>
    destruct (upload_to_s3_false e f b k s (Hfail s)) as (ex & _ & ->) end.
  unfold_M.
  exists (evs1 ++ [StSpinner "Uploading file to S3...";
                   S3Upload (S3_BUCKET e) (s3_key_of (datetime_now e) (file_name f));
                   StError "Error uploading to S3: " (Some ex);
                   StError "Failed to upload file" None])%list.
  split; [|split; [|split]].
  - rewrite Hlog1, <- !app_assoc. done.
  - apply elem_of_app. right. do 3 right. by left.
  - exists ex. apply elem_of_app. right. do 2 right. by left.
  - apply Forall_app. split.
    + eapply Forall_impl; [exact Hlocal|]. intros [] Hev; done.
    + repeat constructor.
Qed.

Lemma C6_upload_failure_halts_witness :
  ∃ evs,
    log (main upload_denied_env (sample_ui sample_image) initial_state).2
    = (log initial_state ++ evs)%list
    ∧ StError "Failed to upload file" None ∈ evs
    ∧ (∃ ex, StError "Error uploading to S3: " (Some ex) ∈ evs)
    ∧ Forall (fun ev => is_ocr_call ev = false ∧ is_inference_call ev = false) evs.
Proof.
  apply (C6_upload_failure_halts upload_denied_env (sample_ui sample_image)
           initial_state sample_image); [reflexivity | reflexivity |].
  intros st. reflexivity.
Defined.

End Upload.

(** ** The storage key (lines 246-247) *)

Section StorageKey.

Lemma append_String a s r : String a s +:+ r = String a (s +:+ r).
Proof. reflexivity. Qed.

Lemma append_empty r : EmptyString +:+ r = r.
Proof. reflexivity. Qed.

Lemma is_digit_digit n : is_digit (digit n) = true.
Proof.
  unfold digit. pose proof (N.mod_upper_bound n 10 ltac:(lia)) as Hr.
  assert (Hcases : ∃ r, (n mod 10)%N = N.of_nat r ∧ (r < 10)%nat).
  { exists (N.to_nat (n mod 10)). lia. }
  destruct Hcases as (r & -> & Hlt).
  do 10 (destruct r as [|r]; [reflexivity|]). lia.
Qed.

(** Every year from 1000 to 9999 prints as four digits: checked year by
    year. *)
Lemma decimal_years_checked :
  forallb (fun k => four_digits (decimal (1000 + N.of_nat k)))
    (seq 0 (N.to_nat 9000)) = true.
Proof. vm_compute. reflexivity. Qed.

Lemma decimal_four_digits y :
  (1000 ≤ y ≤ 9999)%N → four_digits (decimal y) = true.
Proof.
  intros Hy. pose proof decimal_years_checked as Hall.
  rewrite forallb_forall in Hall.
  replace y with (1000 + N.of_nat (N.to_nat (y - 1000)))%N by lia.
  apply Hall, in_seq. lia.
Qed.

Lemma digits_then_app n rest s :
  digits_then n is_empty_string s = true →
  ∀ r, digits_then n rest (s +:+ r) = rest r.
Proof.
  revert s. induction n as [|n IH]; intros s Hs r.
  - destruct s; [done|discriminate].
  - destruct s as [|a s]; [discriminate|].
    rewrite append_String. cbn [digits_then] in Hs |- *.
    apply andb_prop in Hs as [-> Hs]. cbn [andb]. by apply IH.
Qed.

Lemma pad2_digits n : digits_then 2 is_empty_string (pad2 n) = true.
Proof. unfold pad2. cbn [digits_then]. by rewrite !is_digit_digit. Qed.

Lemma strftime_shape d : four_digit_year d → timestamp_shape (strftime d) = true.
Proof.
  intros Hy. unfold timestamp_shape, strftime.
  change 8%nat with (4 + (2 + 2))%nat.
  pose proof (decimal_four_digits _ Hy) as Hyear.
  assert (Hsplit : ∀ n m rest s,
            digits_then (n + m) rest s = digits_then n (digits_then m rest) s).
  { induction n as [|n IH]; intros m rest s; [done|].
    destruct s as [|a s]; [done|]. cbn [Nat.add digits_then]. by rewrite IH. }
  rewrite Hsplit, (digits_then_app _ _ _ Hyear).
  rewrite Hsplit, (digits_then_app _ _ _ (pad2_digits _)).
  rewrite (digits_then_app _ _ _ (pad2_digits _)).
  rewrite append_String, append_empty, Ascii.eqb_refl. cbn [andb].
  change 6%nat with (2 + (2 + 2))%nat.
  rewrite Hsplit, (digits_then_app _ _ _ (pad2_digits _)).
  rewrite Hsplit, (digits_then_app _ _ _ (pad2_digits _)).
  apply pad2_digits.
Qed.

Lemma split_dot_free ext : dot_free ext = true → Py.split "." ext = [ext].
Proof.
  induction ext as [|a ext IH]; [done|].
  cbn [dot_free Py.split]. intros [Ha Hext]%andb_prop.
  apply negb_true_iff in Ha. rewrite Ha, (IH Hext). done.
Qed.

(** Splitting [stem.ext] at the dots ends with [ext]. *)
Lemma split_stem_ext stem ext :
  dot_free ext = true →
  ∃ h t, Py.split "." (stem +:+ "." +:+ ext) = (h :: t ++ [ext])%list.
Proof.
  intros Hext. induction stem as [|a stem (h & t & IH)].
  - exists EmptyString, []. rewrite append_empty, append_String, append_empty.
    cbn [Py.split]. by rewrite Ascii.eqb_refl, (split_dot_free _ Hext).
  - rewrite append_String. cbn [Py.split].
    rewrite IH. destruct (Ascii.eqb a ".").
    + by exists EmptyString, (h :: t).
    + by exists (String a h), t.
Qed.

Lemma file_extension_stem_ext stem ext :
  dot_free ext = true → file_extension (stem +:+ "." +:+ ext) = ext.
Proof.
  intros Hext. unfold file_extension.
  destruct (split_stem_ext stem ext Hext) as (h & t & ->).
  by rewrite app_comm_cons, last_snoc.
Qed.

Lemma emits_col2_block e ui f :
  emits (fun ev => ∀ bucket key, ev = S3Upload bucket key →
                   key = s3_key_of (datetime_now e) (file_name f))
    (col2_block e ui (Some f)).
Proof.
  unfold col2_block, upload_to_s3.
  destruct (button ui); [|emits_step].
  repeat first
    [ apply emits_process_document
    | emits_step
    | match goal with |- emits _ (if ?c then _ else _) => destruct c end ];
    try (intros; discriminate).
  intros bucket key [= _ <-]. done.
Qed.

(** C7. For an accepted file named [stem.ext], the storage key is
    [uploads/], the timestamp YYYYMMDD_HHMMSS (fourteen digits and the
    underscore), a dot, and [ext]; every upload the run makes uses that
    key. *)
Theorem C7_storage_key_pattern e ui st f stem ext :
  four_digit_year (datetime_now e) →
  (col1_block e ui st).1 = Ok (Some f) →
  file_name f = stem +:+ "." +:+ ext →
  dot_free ext = true →
  key_pattern ext (s3_key_of (datetime_now e) (file_name f))
  ∧ ∃ evs, log (main e ui st).2 = (log st ++ evs)%list
      ∧ ∀ bucket key, S3Upload bucket key ∈ evs →
          key = s3_key_of (datetime_now e) (file_name f).
Proof.
  intros Hyear Hacc Hname Hext. split.
  - exists (strftime (datetime_now e)). split; [by apply strftime_shape|].
    unfold s3_key_of. by rewrite Hname, file_extension_stem_ext.
  - destruct (emits_col1_block e ui st) as (evs1 & Hlog1 & Hlocal).
    unfold main, mbind, M_bind.
    destruct (col1_block e ui st) as [[sel|ex1] st1]; [|done].
    cbn [fst snd] in *. injection Hacc as ->.
    destruct (emits_col2_block e ui f st1) as (evs2 & Hlog2 & Hkeys).
    destruct (col2_block e ui (Some f) st1) as [o st2] eqn:Hcol2.
    assert (Hlog : log (match o with Ok a => (Ok a, st2) | Raise ex => (Raise ex, st2) end).2
                   = (log st ++ (evs1 ++ evs2))%list).
    { destruct o; cbn [snd] in *; by rewrite Hlog2, Hlog1, app_assoc. }
    exists (evs1 ++ evs2)%list. split.
    + destruct o; exact Hlog.
    + intros bucket key [Hin|Hin]%elem_of_app.
      * rewrite Forall_forall in Hlocal. by specialize (Hlocal _ Hin).
      * rewrite Forall_forall in Hkeys. by eapply Hkeys.
Qed.

Lemma C7_storage_key_pattern_witness :
  key_pattern "pdf" (s3_key_of sample_now "lab.notes.pdf")
  ∧ ∃ evs,
      log (main sample_env (sample_ui sample_pdf) initial_state).2
      = (log initial_state ++ evs)%list
      ∧ ∀ bucket key, S3Upload bucket key ∈ evs →
          key = s3_key_of sample_now "lab.notes.pdf".
Proof.
  apply (C7_storage_key_pattern sample_env (sample_ui sample_pdf)
           initial_state sample_pdf "lab.notes" "pdf");
    first [reflexivity | unfold four_digit_year; simpl; lia].
Defined.

End StorageKey.

(** ** process_document (lines 87-143) *)

Section Pipeline.

(** The inference client returns a value and reads no clock. *)
Lemma invoke_bedrock_model_returns client prompt text st :
  ∃ v st', invoke_bedrock_model client prompt text st = (Ok v, st')
           ∧ ticks st' = ticks st.
Proof.
  unfold invoke_bedrock_model. unfold_M.
  destruct (client (model_call prompt text)) as [response_body|ex]; [|eauto].
  destruct (first_content_text response_body); eauto.
Qed.

(** The try/except of process_document: the body's value, or the empty
    result after reporting the exception. *)
Lemma process_document_unfold e key prompt st :
  process_document e key prompt st
  = match process_document_body e key prompt st with
    | (Ok r, st') => (Ok r, st')
    | (Raise ex, st') =>
        (Ok empty_result,
         {| log := log st' ++ [StError "Error processing document: " (Some ex)];
            ticks := ticks st' |})
    end.
Proof.
  unfold process_document, try_except.
  destruct (process_document_body e key prompt st) as [[r|ex] st']; done.
Qed.

(** The normal path: the body returns exactly when the OCR stage yields a
    text, and then the result holds that text and the two differences of
    successive clock readings. *)
Lemma process_document_body_outcome e key prompt st :
  match ocr_text e key with
  | Ok text =>
      ∃ analysis,
        (process_document_body e key prompt st).1
        = Ok (dict [
            ("extracted_text", PStr text);
            ("analysis_result", analysis);
            ("textract_time",
             PFloat (clock e (S (ticks st)) - clock e (ticks st))%Q);
            ("bedrock_time",
             PFloat (clock e (S (S (S (ticks st))))
                     - clock e (S (S (ticks st))))%Q)])
  | Raise ex => (process_document_body e key prompt st).1 = Raise ex
  end.
Proof.
  unfold ocr_text, process_document_body. unfold_M.
  destruct (boto3_client e "textract" (AWS_REGION e)); [|done].
  destruct (boto3_client e "bedrock-runtime" (AWS_REGION e)); [|done].
  destruct (detect_document_text e _) as [detect_text_output|]; [|done].
  destruct (extract_text detect_text_output) as [text|]; [|done].
  match goal with |- context [invoke_bedrock_model ?c ?p ?t ?s] =>
    destruct (invoke_bedrock_model_returns c p t s) as (v & st' & -> & Hticks)
  end.
  cbn [ticks] in Hticks. rewrite Hticks. by exists v.
Qed.

Lemma process_document_returns e key prompt st :
  ∃ r, (process_document e key prompt st).1 = Ok r
    ∧ match (process_document_body e key prompt st).1 with
      | Ok r' => r = r'
      | Raise _ => r = empty_result
      end.
Proof.
  rewrite process_document_unfold.
  destruct (process_document_body e key prompt st) as [[r|ex] st'];
    cbn [fst]; eauto.
Qed.

(** The text in the result is the OCR stage's, or the empty string if it raised. *)
Lemma process_document_extracted_text e key prompt st :
  ∃ r, (process_document e key prompt st).1 = Ok r
    ∧ r !! "extracted_text"
      = Some (PStr match ocr_text e key with
                   | Ok text => text
                   | Raise _ => EmptyString
                   end).
Proof.
  destruct (process_document_returns e key prompt st) as (r & Hr & Hbody).
  exists r. split; [done|].
  pose proof (process_document_body_outcome e key prompt st) as Hocr.
  destruct (ocr_text e key) as [text|ex].
  - destruct Hocr as (analysis & Hocr). rewrite Hocr in Hbody. by subst r.
  - rewrite Hocr in Hbody. by subst r.
Qed.

Lemma dom_result_dict (a b c d : pyval) :
  dom (dict [("extracted_text", a); ("analysis_result", b);
             ("textract_time", c); ("bedrock_time", d)]) = result_keys.
Proof.
  unfold dict, result_keys. cbn [list_to_map foldr uncurry fst snd].
  rewrite !dom_insert_L, dom_empty_L. set_solver.
Qed.

(** When the OCR call raises: nothing but the spinner, the call and the
    error; the empty result. *)
Lemma process_document_ocr_raises e key prompt st ex :
  boto3_client e "textract" (AWS_REGION e) = Ok tt →
  boto3_client e "bedrock-runtime" (AWS_REGION e) = Ok tt →
  detect_document_text e (textract_document (S3_BUCKET e) key) = Raise ex →
  process_document e key prompt st
  = (Ok empty_result,
     {| log := log st ++ [
          StSpinner "Processing document with Textract...";
          TextractDetect (textract_document (S3_BUCKET e) key);
          StError "Error processing document: " (Some ex)];
        ticks := S (ticks st) |}).
Proof.
  intros Hocr Hmodel Hraise. rewrite process_document_unfold.
  unfold process_document_body. unfold_M. rewrite Hocr, Hmodel, Hraise.
  cbn [log ticks]. by rewrite <- !app_assoc.
Qed.

End Pipeline.

(** ** The claims about process_document and the request *)

Section Claims.

(** C2, as the code has it. When the OCR call raises, the error is
    reported and the extracted text is the empty string, but processing does
    not go on to the inference stage: the whole result is the empty one
    (empty analysis, both timings 0) and no inference call is made. *)
Theorem C2_ocr_exception_skips_inference e key prompt st ex :
  boto3_client e "textract" (AWS_REGION e) = Ok tt →
  boto3_client e "bedrock-runtime" (AWS_REGION e) = Ok tt →
  detect_document_text e (textract_document (S3_BUCKET e) key) = Raise ex →
  (process_document e key prompt st).1 = Ok empty_result
  ∧ empty_result !! "extracted_text" = Some (PStr EmptyString)
  ∧ ∃ evs, log (process_document e key prompt st).2 = (log st ++ evs)%list
      ∧ StError "Error processing document: " (Some ex) ∈ evs
      ∧ Forall (fun ev => is_inference_call ev = false) evs.
Proof.
  intros Hocr Hmodel Hraise.
  rewrite (process_document_ocr_raises _ _ _ _ _ Hocr Hmodel Hraise).
  cbn [fst snd log]. split; [done|]. split; [done|].
  eexists. split; [done|]. split.
  - do 2 right. by left.
  - by repeat constructor.
Qed.

Lemma C2_ocr_exception_skips_inference_witness :
  (process_document ocr_down_env sample_key "Summarise" initial_state).1
  = Ok empty_result
  ∧ empty_result !! "extracted_text" = Some (PStr EmptyString)
  ∧ ∃ evs,
      log (process_document ocr_down_env sample_key "Summarise" initial_state).2
      = (log initial_state ++ evs)%list
      ∧ StError "Error processing document: "
          (Some (ServiceError "UnsupportedDocumentException")) ∈ evs
      ∧ Forall (fun ev => is_inference_call ev = false) evs.
Proof.
  apply (C2_ocr_exception_skips_inference ocr_down_env sample_key "Summarise"
           initial_state); reflexivity.
Defined.

(** C2 as stated fails: with Textract raising, the run of process_document
    makes no inference call at all. *)
Lemma C2_inference_not_invoked_counterexample :
  detect_document_text ocr_down_env
    (textract_document (S3_BUCKET ocr_down_env) sample_key)
  = Raise (ServiceError "UnsupportedDocumentException")
  ∧ ¬ ∃ request,
      BedrockInvoke request
      ∈ log (process_document ocr_down_env sample_key "Summarise"
               initial_state).2.
Proof.
  split; [reflexivity|]. intros [request Hin].
  rewrite (process_document_ocr_raises ocr_down_env sample_key "Summarise"
             initial_state (ServiceError "UnsupportedDocumentException"))
    in Hin by reflexivity.
  cbn [snd log initial_state app] in Hin.
  repeat (apply elem_of_cons in Hin as [Hin|Hin]; [discriminate|]).
  by apply elem_of_nil in Hin.
Qed.

(** C8. Two invocations on the same stored object against the same OCR
    service yield the same extracted text, whatever the prompts, the clocks,
    the model services and the states they start from. *)
Theorem C8_extraction_deterministic e1 e2 key prompt1 prompt2 st1 st2 :
  same_ocr_service e1 e2 →
  ∃ text r1 r2,
    (process_document e1 key prompt1 st1).1 = Ok r1
    ∧ (process_document e2 key prompt2 st2).1 = Ok r2
    ∧ r1 !! "extracted_text" = Some text
    ∧ r2 !! "extracted_text" = Some text.
Proof.
  intros (Hbucket & Hregion & Hclient & Hdetect).
  destruct (process_document_extracted_text e1 key prompt1 st1) as (r1 & Hr1 & Ht1).
  destruct (process_document_extracted_text e2 key prompt2 st2) as (r2 & Hr2 & Ht2).
  assert (Hsame : ocr_text e1 key = ocr_text e2 key).
  { unfold ocr_text. by rewrite Hbucket, Hregion, Hclient, Hdetect. }
  rewrite Hsame in Ht1. eauto 10.
Qed.

Lemma C8_extraction_deterministic_witness :
  ∃ text r1 r2,
    (process_document sample_env sample_key "Summarise" initial_state).1 = Ok r1
    ∧ (process_document model_down_env sample_key "List the compounds"
         {| log := [StSuccess "File uploaded successfully!"]; ticks := 7 |}).1
      = Ok r2
    ∧ r1 !! "extracted_text" = Some text
    ∧ r2 !! "extracted_text" = Some text.
Proof.
  apply (C8_extraction_deterministic sample_env model_down_env).
  repeat split; reflexivity.
Defined.

(** C9, as the code has it. process_document always returns a dictionary
    with exactly the four keys; on the exception path it is the empty result
    (both texts empty, both timings 0); on the normal path each timing is
    the difference of two successive clock readings, hence non-negative when
    the wall clock does not run backwards. *)
Theorem C9_result_shape e key prompt st :
  clock_never_back e →
  ∃ r, (process_document e key prompt st).1 = Ok r
    ∧ dom r = result_keys
    ∧ match (process_document_body e key prompt st).1 with
      | Ok r' => r = r'
      | Raise _ =>
          r = empty_result
          ∧ r !! "extracted_text" = Some (PStr EmptyString)
          ∧ r !! "analysis_result" = Some (PStr EmptyString)
          ∧ r !! "textract_time" = Some (PInt 0)
          ∧ r !! "bedrock_time" = Some (PInt 0)
      end
    ∧ timings_nonneg r.
Proof.
  intros Hclock.
  destruct (process_document_returns e key prompt st) as (r & Hr & Hbody).
  exists r. split; [done|].
  pose proof (process_document_body_outcome e key prompt st) as Hocr.
  destruct (ocr_text e key) as [text|ex].
  - destruct Hocr as (analysis & Hocr). rewrite Hocr in Hbody |- *. subst r.
    split; [apply dom_result_dict|]. split; [done|].
    do 2 eexists. split; [done|]. split; [done|]. cbn [nonneg snd].
    pose proof (Hclock (ticks st)). pose proof (Hclock (S (S (ticks st)))).
    split; lra.
  - rewrite Hocr in Hbody |- *. subst r.
    split; [apply dom_result_dict|]. split; [done|].
    exists (PInt 0), (PInt 0). by repeat split.
Qed.

Lemma steady_clock_never_back : clock_never_back sample_env.
Proof.
  intros n. cbn [clock sample_env mk_env]. unfold steady_clock.
  rewrite <- Zle_Qle. lia.
Qed.

Lemma C9_result_shape_witness :
  ∃ r, (process_document sample_env sample_key "Summarise" initial_state).1 = Ok r
    ∧ dom r = result_keys
    ∧ match (process_document_body sample_env sample_key "Summarise"
               initial_state).1 with
      | Ok r' => r = r'
      | Raise _ =>
          r = empty_result
          ∧ r !! "extracted_text" = Some (PStr EmptyString)
          ∧ r !! "analysis_result" = Some (PStr EmptyString)
          ∧ r !! "textract_time" = Some (PInt 0)
          ∧ r !! "bedrock_time" = Some (PInt 0)
      end
    ∧ timings_nonneg r.
Proof.
  apply (C9_result_shape sample_env sample_key "Summarise" initial_state).
  exact steady_clock_never_back.
Defined.

(** C9 as stated fails: with the wall clock set back during the call, the
    normal path returns negative timings. *)
Lemma C9_backward_clock_counterexample :
  ∃ r, (process_document backward_clock_env sample_key "Summarise"
          initial_state).1 = Ok r
    ∧ r !! "textract_time" = Some (PFloat (backward_clock 1 - backward_clock 0))
    ∧ ¬ timings_nonneg r.
Proof.
  destruct (process_document_returns backward_clock_env sample_key "Summarise"
              initial_state) as (r & Hr & Hbody).
  pose proof (process_document_body_outcome backward_clock_env sample_key
                "Summarise" initial_state) as Hocr.
  change (ocr_text backward_clock_env sample_key)
    with (extract_text sample_ocr_response) in Hocr.
  assert (Htext : ∃ text, extract_text sample_ocr_response = Ok text).
  { eexists. vm_compute. reflexivity. }
  destruct Htext as (text & Htext). rewrite Htext in Hocr.
  destruct Hocr as (analysis & Hocr). rewrite Hocr in Hbody. subst r.
  eexists. split; [exact Hr|]. split; [done|].
  intros (t & b & Ht & _ & Hneg & _).
  change (Some (PFloat (backward_clock 1 - backward_clock 0)) = Some t) in Ht.
  injection Ht as <-. cbn [nonneg] in Hneg.
  vm_compute in Hneg. by apply Hneg.
Qed.

End Claims.

(** ** The request and the sliders; sample checks of C3 and C4 *)

Section Request.

(** The request carries the fixed instruction, one user turn with prompt and
    text, and the configuration written in the function, for every prompt
    and text. *)
Lemma model_call_shape prompt text :
  modelId (model_call prompt text) = MODEL_ID
  ∧ Py.getitem (body (model_call prompt text)) "system"
    = Ok (PList [PDict (dict [("text", PStr system_text)])])
  ∧ Py.getitem (body (model_call prompt text)) "messages"
    = Ok (PList [PDict (dict [
        ("role", PStr "user");
        ("content", PList [PDict (dict [
           ("text", PStr (prompt +:+ ":" +:+ nl +:+ nl +:+ text +:+ nl +:+ nl))])])])])
  ∧ inference_config (model_call prompt text) = Ok fixed_config.
Proof. by repeat split. Qed.

(** C1, at a run with every slider moved: the one request the run sends
    carries the configuration written in invoke_bedrock_model, which is not
    the one the sliders show; the slider asks for 500 tokens and the request
    says 1000. *)
Theorem C1_sliders_do_not_reach_request :
  ∃ request,
    omap request_of (log (main sample_env tuned_ui initial_state).2) = [request]
    ∧ inference_config request = Ok fixed_config
    ∧ inference_config request ≠ Ok (slider_config tuned_ui)
    ∧ (request_body_tokens ← inference_config request;
       Py.getitem request_body_tokens "max_new_tokens") = Ok (PInt 1000)
    ∧ slider_max_new_tokens tuned_ui = 500%Z.
Proof.
  exists (model_call "Output only the CSV record."
            ("NaCl 20 C" +:+ nl +:+ "heated 5 min")).
  split; [vm_compute; reflexivity|].
  split; [apply model_call_shape|].
  split; [|split; [vm_compute; reflexivity|reflexivity]].
  rewrite (proj2 (proj2 (proj2 (model_call_shape _ _)))).
  unfold fixed_config, slider_config. by intros [= Heq].
Qed.

Lemma sample_blocks_typed : text_typed sample_blocks.
Proof.
  intros block v Hin Hv. unfold sample_blocks in Hin.
  repeat (apply elem_of_cons in Hin as [->|Hin]);
    [| | |by apply elem_of_nil in Hin];
    vm_compute in Hv; [discriminate| |]; injection Hv as <-; eauto.
Qed.

Lemma C3_extracted_text_is_join_witness :
  let carrying := filter carries_text sample_blocks in
  extract_text sample_ocr_response
  = Ok (String.concat nl (the_text <$> carrying))
  ∧ (length carrying ≤ length sample_blocks)%nat
  ∧ (carrying = [] → extract_text sample_ocr_response = Ok EmptyString).
Proof.
  apply (C3_extracted_text_is_join
           (dict [("DetectDocumentTextModelVersion", PStr "1.0")])
           sample_blocks).
  exact sample_blocks_typed.
Defined.

Lemma no_output_key_missing : ¬ expected_structure no_output_key.
Proof.
  intros (d & o & m & c & rest & [= <-] & Hout & _).
  by rewrite lookup_empty in Hout.
Qed.

Lemma no_content_key_missing : ¬ expected_structure no_content_key.
Proof.
  intros (d & o & m & c & rest & [= <-] & Hout & Hmsg & Hcontent & _).
  vm_compute in Hout. injection Hout as <-.
  vm_compute in Hmsg. injection Hmsg as <-.
  vm_compute in Hcontent. discriminate.
Qed.

Lemma empty_content_missing : ¬ expected_structure empty_content.
Proof.
  intros (d & o & m & c & rest & [= <-] & Hout & Hmsg & Hcontent & _).
  vm_compute in Hout. injection Hout as <-.
  vm_compute in Hmsg. injection Hmsg as <-.
  vm_compute in Hcontent. discriminate.
Qed.

Lemma C4_missing_structure_gives_empty_witness :
  (invoke_bedrock_model (fun _ => Ok no_output_key) "Summarise" "NaCl 20 C"
     initial_state).1 = Ok (PStr EmptyString)
  ∧ (invoke_bedrock_model (fun _ => Ok no_content_key) "Summarise" "NaCl 20 C"
       initial_state).1 = Ok (PStr EmptyString)
  ∧ (invoke_bedrock_model (fun _ => Ok empty_content) "Summarise" "NaCl 20 C"
       initial_state).1 = Ok (PStr EmptyString).
Proof.
  split; [|split].
  - apply (C4_missing_structure_gives_empty _ _ _ _ no_output_key);
      [reflexivity | exact no_output_key_missing].
  - apply (C4_missing_structure_gives_empty _ _ _ _ no_content_key);
      [reflexivity | exact no_content_key_missing].
  - apply (C4_missing_structure_gives_empty _ _ _ _ empty_content);
      [reflexivity | exact empty_content_missing].
Defined.

End Request.

(** ** Sample evaluations *)

Section Samples.

Example split_sample :
  Py.split "." "lab.notes.pdf" = ["lab"; "notes"; "pdf"].
Proof. reflexivity. Qed.

Example split_no_dot : Py.split "." "README" = ["README"].
Proof. reflexivity. Qed.

Example strftime_sample : strftime sample_now = "20240307_090500".
Proof. reflexivity. Qed.

Example s3_key_sample :
  s3_key_of sample_now "lab.notes.pdf" = "uploads/20240307_090500.pdf".
Proof. reflexivity. Qed.

Example extract_text_sample :
  extract_text sample_ocr_response
  = Ok ("NaCl 20 C" +:+ nl +:+ "heated 5 min").
Proof. vm_compute. reflexivity. Qed.

(** A text field that is not a string makes the join raise. *)
Example extract_text_untyped :
  extract_text (ocr_response ∅ [dict [("Text", PInt 7)]]) = Raise TypeError.
Proof. vm_compute. reflexivity. Qed.

Example first_content_text_sample :
  first_content_text sample_model_response = Ok (PStr "NaCl,20,,5").
Proof. vm_compute. reflexivity. Qed.

Example first_content_text_no_message :
  first_content_text (PDict (dict [("output", PDict ∅)]))
  = Raise (KeyError (PStr "message")).
Proof. vm_compute. reflexivity. Qed.

(** A single-page image with every service answering: one upload, one OCR
    call, one inference call, in that order. *)
Example sample_run_calls :
  List.filter is_network_call
    (log (main sample_env (sample_ui sample_image) initial_state).2)
  = [ S3Upload (Some "documents") "uploads/20240307_090500.jpeg";
      TextractDetect
        (textract_document (Some "documents") "uploads/20240307_090500.jpeg");
      BedrockInvoke
        (model_call "Output only the CSV record."
           ("NaCl 20 C" +:+ nl +:+ "heated 5 min")) ].
Proof. vm_compute. reflexivity. Qed.

(** The same page with the model service down: the inference error is
    reported and the run still shows the extracted text. *)
Example model_down_run :
  (process_document model_down_env sample_key "Summarise" initial_state).1
  = Ok (dict [
      ("extracted_text", PStr ("NaCl 20 C" +:+ nl +:+ "heated 5 min"));
      ("analysis_result", PStr EmptyString);
      ("textract_time", PFloat (backward_clock 1 - backward_clock 0));
      ("bedrock_time", PFloat (backward_clock 3 - backward_clock 2))]).
Proof. vm_compute. reflexivity. Qed.

End Samples.

(** * Further properties of the code *)

(** ** upload_to_s3 and invoke_bedrock_model on every path *)

Section Clients.

Lemma upload_to_s3_unfold e f bucket key st :
  upload_to_s3 e f bucket key st
  = match boto3_client e "s3" (AWS_REGION e) with
    | Raise ex => (Raise ex, st)
    | Ok _ =>
        match upload_fileobj e f bucket key with
        | Ok _ =>
            (Ok true,
             {| log := log st ++ [S3Upload bucket key]; ticks := ticks st |})
        | Raise ex =>
            (Ok false,
             {| log := log st ++ [S3Upload bucket key;
                                  StError "Error uploading to S3: " (Some ex)];
                ticks := ticks st |})
        end
    end.
Proof.
  unfold upload_to_s3. unfold_M.
  destruct (boto3_client e "s3" (AWS_REGION e)); [|done].
  destruct (upload_fileobj e f bucket key); [done|].
  cbn [log ticks]. by rewrite <- app_assoc.
Qed.

Lemma invoke_bedrock_model_unfold client prompt text st :
  invoke_bedrock_model client prompt text st
  = match client (model_call prompt text) ≫= first_content_text with
    | Ok v =>
        (Ok v,
         {| log := log st ++ [BedrockInvoke (model_call prompt text)];
            ticks := ticks st |})
    | Raise ex =>
        (Ok (PStr EmptyString),
         {| log := log st ++ [BedrockInvoke (model_call prompt text);
                              StError "Error invoking model: " (Some ex)];
            ticks := ticks st |})
    end.
Proof.
  unfold invoke_bedrock_model. unfold_M.
  destruct (client (model_call prompt text)) as [response_body|ex].
  - destruct (first_content_text response_body); [done|].
    cbn [log ticks]. by rewrite <- app_assoc.
  - cbn [log ticks]. by rewrite <- app_assoc.
Qed.

(** X1. Once its client is built, upload_to_s3 issues one upload with the
    bucket and key it was given and never raises: it returns True when the
    upload returns, and returns False after showing the exception when the
    upload raises. *)
Theorem X1_upload_to_s3_signal e f bucket key st :
  boto3_client e "s3" (AWS_REGION e) = Ok tt →
  ∃ ok errs,
    upload_to_s3 e f bucket key st
    = (Ok ok, {| log := log st ++ S3Upload bucket key :: errs;
                 ticks := ticks st |})
    ∧ match upload_fileobj e f bucket key with
      | Ok _ => ok = true ∧ errs = []
      | Raise ex =>
          ok = false ∧ errs = [StError "Error uploading to S3: " (Some ex)]
      end.
Proof.
  intros Hclient. rewrite upload_to_s3_unfold, Hclient.
  destruct (upload_fileobj e f bucket key) as [|ex]; eauto.
Qed.

Lemma X1_upload_to_s3_signal_witness :
  ∃ ok errs,
    upload_to_s3 upload_denied_env sample_image (Some "documents") sample_key
      initial_state
    = (Ok ok, {| log := log initial_state
                        ++ S3Upload (Some "documents") sample_key :: errs;
                 ticks := ticks initial_state |})
    ∧ match upload_fileobj upload_denied_env sample_image (Some "documents")
              sample_key with
      | Ok _ => ok = true ∧ errs = []
      | Raise ex =>
          ok = false ∧ errs = [StError "Error uploading to S3: " (Some ex)]
      end.
Proof.
  apply (X1_upload_to_s3_signal upload_denied_env sample_image
           (Some "documents") sample_key initial_state).
  reflexivity.
Defined.

(** X2. invoke_bedrock_model issues exactly one model call and never
    raises.  It shows an error exactly when the call or the reading of the
    response raised, and then returns the empty string; otherwise it returns
    what the reading gave and shows nothing. *)
Theorem X2_invoke_bedrock_model_once client prompt text st :
  ∃ v errs,
    invoke_bedrock_model client prompt text st
    = (Ok v, {| log := log st ++ BedrockInvoke (model_call prompt text) :: errs;
                ticks := ticks st |})
    ∧ match client (model_call prompt text) ≫= first_content_text with
      | Ok v' => v = v' ∧ errs = []
      | Raise ex =>
          v = PStr EmptyString
          ∧ errs = [StError "Error invoking model: " (Some ex)]
      end.
Proof.
  rewrite invoke_bedrock_model_unfold.
  destruct (client (model_call prompt text) ≫= first_content_text); eauto.
Qed.

(** X3. When the response has the output/message/content structure, the
    client returns the text of the first content element, whatever follows
    it in the content list, and shows no error. *)
Theorem X3_first_content_returned client prompt text st d o m c rest v :
  client (model_call prompt text) = Ok (PDict d) →
  d !! "output" = Some (PDict o) →
  o !! "message" = Some (PDict m) →
  m !! "content" = Some (PList (PDict c :: rest)) →
  c !! "text" = Some v →
  invoke_bedrock_model client prompt text st
  = (Ok v, {| log := log st ++ [BedrockInvoke (model_call prompt text)];
              ticks := ticks st |}).
Proof.
  intros Hresp Hout Hmsg Hcontent Htext.
  rewrite invoke_bedrock_model_unfold, Hresp.
  unfold first_content_text, mbind, outcome_bind, Py.contains, Py.getitem.
  rewrite Hout, bool_decide_true by eauto.
  rewrite Hmsg, Hcontent, bool_decide_true by eauto.
  cbn [Py.len length Nat.ltb Nat.leb Py.getitem0]. by rewrite Htext.
Qed.

Lemma X3_first_content_returned_witness :
  invoke_bedrock_model (fun _ => Ok sample_model_response) "Summarise"
    "NaCl 20 C" initial_state
  = (Ok (PStr "NaCl,20,,5"),
     {| log := log initial_state
               ++ [BedrockInvoke (model_call "Summarise" "NaCl 20 C")];
        ticks := ticks initial_state |}).
Proof.
  eapply (X3_first_content_returned (fun _ => Ok sample_model_response)
            "Summarise" "NaCl 20 C" initial_state);
    [reflexivity | vm_compute; reflexivity ..].
Defined.

(** X4. A response object without an output key gives the empty string
    silently: no error is shown, so the caller cannot tell it from a model
    that answered with an empty text. *)
Theorem X4_no_output_is_silent client prompt text st d :
  client (model_call prompt text) = Ok (PDict d) →
  d !! "output" = None →
  invoke_bedrock_model client prompt text st
  = (Ok (PStr EmptyString),
     {| log := log st ++ [BedrockInvoke (model_call prompt text)];
        ticks := ticks st |}).
Proof.
  intros Hresp Hout. rewrite invoke_bedrock_model_unfold, Hresp.
  unfold first_content_text, mbind, outcome_bind, Py.contains.
  rewrite bool_decide_false; [done|]. rewrite Hout. by intros [? ?].
Qed.

Lemma X4_no_output_is_silent_witness :
  invoke_bedrock_model (fun _ => Ok no_output_key) "Summarise" "NaCl 20 C"
    initial_state
  = (Ok (PStr EmptyString),
     {| log := log initial_state
               ++ [BedrockInvoke (model_call "Summarise" "NaCl 20 C")];
        ticks := ticks initial_state |}).
Proof.
  apply (X4_no_output_is_silent (fun _ => Ok no_output_key) "Summarise"
           "NaCl 20 C" initial_state ∅); reflexivity.
Defined.

(** X5. A response whose output has no message key is not silent: the
    lookup raises KeyError, which is shown, and the result is the empty
    string. *)
Theorem X5_no_message_is_reported client prompt text st d o :
  client (model_call prompt text) = Ok (PDict d) →
  d !! "output" = Some (PDict o) →
  o !! "message" = None →
  invoke_bedrock_model client prompt text st
  = (Ok (PStr EmptyString),
     {| log := log st ++ [
          BedrockInvoke (model_call prompt text);
          StError "Error invoking model: " (Some (KeyError (PStr "message")))];
        ticks := ticks st |}).
Proof.
  intros Hresp Hout Hmsg. rewrite invoke_bedrock_model_unfold, Hresp.
  unfold first_content_text, mbind, outcome_bind, Py.contains, Py.getitem.
  rewrite Hout, bool_decide_true by eauto. by rewrite Hmsg.
Qed.

Lemma X5_no_message_is_reported_witness :
  invoke_bedrock_model (fun _ => Ok (PDict (dict [("output", PDict ∅)])))
    "Summarise" "NaCl 20 C" initial_state
  = (Ok (PStr EmptyString),
     {| log := log initial_state ++ [
          BedrockInvoke (model_call "Summarise" "NaCl 20 C");
          StError "Error invoking model: " (Some (KeyError (PStr "message")))];
        ticks := ticks initial_state |}).
Proof.
  apply (X5_no_message_is_reported
           (fun _ => Ok (PDict (dict [("output", PDict ∅)])))
           "Summarise" "NaCl 20 C" initial_state
           (dict [("output", PDict ∅)]) ∅); reflexivity.
Defined.

Lemma append_assoc s1 s2 s3 : (s1 +:+ s2) +:+ s3 = s1 +:+ s2 +:+ s3.
Proof.
  induction s1 as [|a s1 IH]; [done|].
  by rewrite !append_String, IH.
Qed.

(** X6. The user turn is the plain concatenation prompt, colon, blank line,
    text: the request does not record where the prompt ends, so a document
    text can continue the prompt. *)
Theorem X6_prompt_boundary_not_recorded prompt middle text :
  request_body (prompt +:+ ":" +:+ nl +:+ nl +:+ middle) text
  = request_body prompt (middle +:+ ":" +:+ nl +:+ nl +:+ text).
Proof.
  unfold request_body. do 8 f_equal.
  by rewrite !append_assoc.
Qed.

End Clients.

(** ** process_document on every path *)

Section EveryPath.

(** The whole of process_document, path by path. *)
Lemma process_document_paths e key prompt st :
  process_document e key prompt st
  = match boto3_client e "textract" (AWS_REGION e);;
          boto3_client e "bedrock-runtime" (AWS_REGION e) with
    | Raise ex =>
        (Ok empty_result,
         {| log := log st ++ [StError "Error processing document: " (Some ex)];
            ticks := ticks st |})
    | Ok _ =>
        match detect_document_text e (textract_document (S3_BUCKET e) key)
              ≫= extract_text with
        | Raise ex =>
            (Ok empty_result,
             {| log := log st ++ [
                  StSpinner "Processing document with Textract...";
                  TextractDetect (textract_document (S3_BUCKET e) key);
                  StError "Error processing document: " (Some ex)];
                ticks := S (ticks st) |})
        | Ok text =>
            let timings v :=
              dict [
                ("extracted_text", PStr text);
                ("analysis_result", v);
                ("textract_time",
                 PFloat (clock e (S (ticks st)) - clock e (ticks st))%Q);
                ("bedrock_time",
                 PFloat (clock e (S (S (S (ticks st))))
                         - clock e (S (S (ticks st))))%Q)] in
            let calls := [
              StSpinner "Processing document with Textract...";
              TextractDetect (textract_document (S3_BUCKET e) key);
              StSpinner "Analyzing with Bedrock...";
              BedrockInvoke (model_call prompt text)] in
            match invoke_model e (model_call prompt text)
                  ≫= first_content_text with
            | Ok v =>
                (Ok (timings v),
                 {| log := log st ++ calls;
                    ticks := S (S (S (S (ticks st)))) |})
            | Raise ex =>
                (Ok (timings (PStr EmptyString)),
                 {| log := log st ++ calls
                           ++ [StError "Error invoking model: " (Some ex)];
                    ticks := S (S (S (S (ticks st)))) |})
            end
        end
    end.
Proof.
  rewrite process_document_unfold. unfold process_document_body.
  unfold mbind at 1 2 3 4 5 6 7, M_bind, lift, outcome_bind.
  destruct (boto3_client e "textract" (AWS_REGION e)); [|done].
  destruct (boto3_client e "bedrock-runtime" (AWS_REGION e)); [|done].
  unfold_M.
  destruct (detect_document_text e _) as [out|ex];
    [|cbn [log ticks]; by rewrite <- !app_assoc].
  destruct (extract_text out) as [text|ex];
    [|cbn [log ticks]; by rewrite <- !app_assoc].
  match goal with |- context [invoke_bedrock_model ?c ?p ?t ?s] =>
    rewrite (invoke_bedrock_model_unfold c p t s) end.
  unfold mbind, outcome_bind.
  destruct (invoke_model e (model_call prompt text)) as [response_body|ex].
  - destruct (first_content_text response_body);
      cbn [log ticks]; by rewrite <- !app_assoc.
  - cbn [log ticks]. by rewrite <- !app_assoc.
Qed.

End EveryPath.

(** ** The OCR stage and the inference stage together *)

Section Stages.

(** Over blocks that are dicts the comprehension never raises: it collects
    the text fields, typed or not. *)
Lemma block_texts_dicts (blocks : list (gmap string pyval)) :
  block_texts (PDict <$> blocks)
  = Ok (omap (fun block : gmap string pyval => block !! "Text") blocks).
Proof.
  induction blocks as [|block blocks IH]; [done|].
  rewrite fmap_cons. cbn [block_texts omap list_omap].
  unfold mbind at 1, outcome_bind at 1, Py.contains, Py.getitem.
  destruct (block !! "Text") as [v|] eqn:Hv.
  - rewrite bool_decide_true by eauto.
    rewrite IH. done.
  - rewrite bool_decide_false by (by intros [? ?]). exact IH.
Qed.

Lemma strs_not_str items v :
  v ∈ items → (∀ s, v ≠ PStr s) → Py.strs items = Raise TypeError.
Proof.
  intros Hin Hv. induction items as [|item items IH]; [by apply elem_of_nil in Hin|].
  apply elem_of_cons in Hin as [<-|Hin].
  - destruct v; try done. by destruct (Hv s).
  - cbn [Py.strs]. destruct item; try done. by rewrite (IH Hin).
Qed.

(** X7. One block whose text field is not a string makes the extraction
    raise TypeError: no text is returned at all, not even that of the other
    blocks. *)
Theorem X7_ill_typed_text_raises other (blocks : list (gmap string pyval)) :
  ill_typed_text blocks →
  extract_text (ocr_response other blocks) = Raise TypeError.
Proof.
  intros (block & v & Hin & Hv & Hnot).
  unfold extract_text, ocr_response. cbn [Py.getitem].
  rewrite lookup_insert_eq. cbn [mbind outcome_bind Py.iter].
  rewrite block_texts_dicts. cbn [mbind outcome_bind]. unfold Py.join.
  rewrite (strs_not_str _ v); [done| |done].
  apply list_elem_of_omap. eauto.
Qed.

Lemma X7_ill_typed_text_raises_witness :
  extract_text
    (ocr_response ∅ [dict [("Text", PStr "NaCl 20 C")];
                     dict [("Text", PInt 7)]])
  = Raise TypeError.
Proof.
  apply (X7_ill_typed_text_raises ∅).
  exists (dict [("Text", PInt 7)]), (PInt 7).
  split; [|split; [reflexivity|discriminate]].
  apply elem_of_cons. right. apply elem_of_cons. by left.
Defined.

(** X8. When the OCR call returns but its answer cannot be joined (no
    Blocks key, an ill-typed text), process_document treats it like a failed
    call: the error is shown, the result is the empty one and the model is
    not called. *)
Theorem X8_unreadable_ocr_answer e key prompt st out ex :
  boto3_client e "textract" (AWS_REGION e) = Ok tt →
  boto3_client e "bedrock-runtime" (AWS_REGION e) = Ok tt →
  detect_document_text e (textract_document (S3_BUCKET e) key) = Ok out →
  extract_text out = Raise ex →
  process_document e key prompt st
  = (Ok empty_result,
     {| log := log st ++ [
          StSpinner "Processing document with Textract...";
          TextractDetect (textract_document (S3_BUCKET e) key);
          StError "Error processing document: " (Some ex)];
        ticks := S (ticks st) |}).
Proof.
  intros Hocr Hmodel Hout Hjoin.
  rewrite process_document_paths, Hocr, Hmodel, Hout.
  cbn [mbind outcome_bind]. by rewrite Hjoin.
Qed.

Lemma X8_unreadable_ocr_answer_witness :
  process_document
    (mk_env steady_clock (Ok tt) (Ok (PDict ∅)) (Ok sample_model_response)
       (Ok [Ok "NaCl 20 C"]))
    sample_key "Summarise" initial_state
  = (Ok empty_result,
     {| log := log initial_state ++ [
          StSpinner "Processing document with Textract...";
          TextractDetect (textract_document (Some "documents") sample_key);
          StError "Error processing document: "
            (Some (KeyError (PStr "Blocks")))];
        ticks := S (ticks initial_state) |}).
Proof.
  apply (X8_unreadable_ocr_answer
           (mk_env steady_clock (Ok tt) (Ok (PDict ∅))
              (Ok sample_model_response) (Ok [Ok "NaCl 20 C"]))
           sample_key "Summarise" initial_state (PDict ∅));
    reflexivity.
Defined.

(** X9. A failure of the model call is not fatal to process_document: the
    error is shown, the extracted text and both timings are returned, and
    the analysis is the empty string. *)
Theorem X9_model_failure_keeps_text e key prompt st text ex :
  ocr_text e key = Ok text →
  invoke_model e (model_call prompt text) = Raise ex →
  process_document e key prompt st
  = (Ok (dict [
       ("extracted_text", PStr text);
       ("analysis_result", PStr EmptyString);
       ("textract_time",
        PFloat (clock e (S (ticks st)) - clock e (ticks st))%Q);
       ("bedrock_time",
        PFloat (clock e (S (S (S (ticks st))))
                - clock e (S (S (ticks st))))%Q)]),
     {| log := log st ++ [
          StSpinner "Processing document with Textract...";
          TextractDetect (textract_document (S3_BUCKET e) key);
          StSpinner "Analyzing with Bedrock...";
          BedrockInvoke (model_call prompt text);
          StError "Error invoking model: " (Some ex)];
        ticks := S (S (S (S (ticks st)))) |}).
Proof.
  intros Hocr Hraise. rewrite process_document_paths.
  unfold ocr_text in Hocr. unfold mbind, outcome_bind in *.
  destruct (boto3_client e "textract" (AWS_REGION e)); [|done].
  destruct (boto3_client e "bedrock-runtime" (AWS_REGION e)); [|done].
  destruct (detect_document_text e _) as [out|]; [|done].
  rewrite Hocr. cbv zeta. by rewrite Hraise.
Qed.

Lemma X9_model_failure_keeps_text_witness :
  process_document model_down_env sample_key "Summarise" initial_state
  = (Ok (dict [
       ("extracted_text", PStr ("NaCl 20 C" +:+ nl +:+ "heated 5 min"));
       ("analysis_result", PStr EmptyString);
       ("textract_time",
        PFloat (clock model_down_env (S (ticks initial_state))
                - clock model_down_env (ticks initial_state))%Q);
       ("bedrock_time",
        PFloat (clock model_down_env (S (S (S (ticks initial_state))))
                - clock model_down_env (S (S (ticks initial_state))))%Q)]),
     {| log := log initial_state ++ [
          StSpinner "Processing document with Textract...";
          TextractDetect
            (textract_document (S3_BUCKET model_down_env) sample_key);
          StSpinner "Analyzing with Bedrock...";
          BedrockInvoke
            (model_call "Summarise" ("NaCl 20 C" +:+ nl +:+ "heated 5 min"));
          StError "Error invoking model: "
            (Some (ServiceError "ThrottlingException"))];
        ticks := S (S (S (S (ticks initial_state)))) |}).
Proof.
  apply (X9_model_failure_keeps_text model_down_env sample_key "Summarise"
           initial_state);
    [vm_compute; reflexivity | reflexivity].
Defined.

(** X10. On every path process_document makes its service calls in one
    fixed order and without retry: the OCR call once if both clients can be
    built, then the model call once, on the text just extracted, if the OCR
    stage yielded a text; nothing else. *)
Theorem X10_process_document_calls e key prompt st :
  ∃ evs,
    log (process_document e key prompt st).2 = (log st ++ evs)%list
    ∧ List.filter is_network_call evs = process_document_calls e key prompt.
Proof.
  rewrite process_document_paths. unfold process_document_calls, ocr_text.
  unfold mbind, outcome_bind.
  destruct (boto3_client e "textract" (AWS_REGION e)); [|by eexists].
  destruct (boto3_client e "bedrock-runtime" (AWS_REGION e)); [|by eexists].
  destruct (detect_document_text e _) as [out|]; [|by eexists].
  destruct (extract_text out) as [text|]; [|by eexists].
  cbv zeta.
  destruct (invoke_model e (model_call prompt text)) as [response_body|];
    [destruct (first_content_text response_body)|]; by eexists.
Qed.

End Stages.

(** ** The extension and the key (lines 246-247) *)

Section KeyIdentity.

Lemma split_nonempty c s : ∃ h t, Py.split c s = h :: t.
Proof.
  induction s as [|a s (h & t & IH)]; [by eexists _, _|].
  cbn [Py.split]. rewrite IH. destruct (Ascii.eqb a c); by eexists _, _.
Qed.

(** The last piece of a split: free of dots, and either the whole string or
    what follows its last dot. *)
Lemma last_split s :
  ∃ ext, last (Py.split "." s) = Some ext
    ∧ dot_free ext = true
    ∧ (s = ext ∨ ∃ stem, s = stem +:+ "." +:+ ext).
Proof.
  induction s as [|a s (ext & Hlast & Hfree & Hshape)].
  - exists EmptyString. split; [done|]. split; [done|]. by left.
  - cbn [Py.split]. destruct (Ascii.eqb a ".") eqn:Ha.
    + apply Ascii.eqb_eq in Ha as ->. exists ext.
      rewrite last_cons, Hlast. split; [done|]. split; [done|]. right.
      destruct Hshape as [->|(stem & ->)].
      * by exists EmptyString.
      * by exists (String "." stem).
    + destruct Hshape as [->|(stem & ->)].
      * rewrite (split_dot_free _ Hfree). exists (String a ext).
        split; [done|]. split; [|by left].
        cbn [dot_free]. by rewrite Ha, Hfree.
      * destruct (split_stem_ext stem ext Hfree) as (h & t & Hsplit).
        rewrite Hsplit in Hlast |- *. exists ext. split.
        { rewrite app_comm_cons, last_snoc. done. }
        split; [done|]. right. by exists (String a stem).
Qed.

(** X11. The extension taken from a file name contains no dot and is the
    part after the last dot; a name without any dot is its own extension,
    and a name ending in a dot has the empty one. *)
Theorem X11_file_extension_after_last_dot name :
  dot_free (file_extension name) = true
  ∧ (name = file_extension name
     ∨ ∃ stem, name = stem +:+ "." +:+ file_extension name).
Proof.
  unfold file_extension.
  destruct (last_split name) as (ext & -> & Hfree & Hshape). done.
Qed.

Lemma read_digits_app n acc s v :
  read_digits n acc s = Some (v, EmptyString) →
  ∀ r, read_digits n acc (s +:+ r) = Some (v, r).
Proof.
  revert acc s. induction n as [|n IH]; intros acc s Hs r.
  - destruct s; [|done]. by injection Hs as ->.
  - destruct s as [|a s]; [done|]. rewrite append_String.
    cbn [read_digits] in Hs |- *. destruct (is_digit a); [|done].
    by apply IH.
Qed.

(** Checked value by value: a two-digit field reads back. *)
Lemma pad2_checked :
  forallb (fun k => bool_decide (read_digits 2 0 (pad2 (N.of_nat k))
                                 = Some (N.of_nat k, EmptyString)))
    (seq 0 100) = true.
Proof. vm_compute. reflexivity. Qed.

Lemma read_pad2 n r :
  (n ≤ 99)%N → read_digits 2 0 (pad2 n +:+ r) = Some (n, r).
Proof.
  intros Hn. apply read_digits_app.
  pose proof pad2_checked as Hall. rewrite forallb_forall in Hall.
  specialize (Hall (N.to_nat n)). rewrite N2Nat.id in Hall.
  eapply bool_decide_eq_true_1, Hall, in_seq. lia.
Qed.

(** Checked year by year: a four-digit year reads back. *)
Lemma year_checked :
  forallb (fun k => bool_decide (read_digits 4 0 (decimal (1000 + N.of_nat k))
                                 = Some (1000 + N.of_nat k, EmptyString))%N)
    (seq 0 (N.to_nat 9000)) = true.
Proof. vm_compute. reflexivity. Qed.

Lemma read_year y r :
  (1000 ≤ y ≤ 9999)%N → read_digits 4 0 (decimal y +:+ r) = Some (y, r).
Proof.
  intros Hy. apply read_digits_app.
  pose proof year_checked as Hall. rewrite forallb_forall in Hall.
  specialize (Hall (N.to_nat (y - 1000))).
  replace (1000 + N.of_nat (N.to_nat (y - 1000)))%N with y in Hall by lia.
  eapply bool_decide_eq_true_1, Hall, in_seq. lia.
Qed.

(** The timestamp reads back to the time it was made from. *)
Lemma strptime_strftime d r :
  calendar d → strptime (strftime d +:+ r) = Some (d, r).
Proof.
  intros (Hy & Hm & Hd & HH & HM & HS). unfold strptime, strftime.
  rewrite !append_assoc.
  rewrite read_year by done. cbn [mbind option_bind].
  rewrite read_pad2 by lia. cbn [mbind option_bind].
  rewrite read_pad2 by lia. cbn [mbind option_bind].
  rewrite append_String, append_empty, Ascii.eqb_refl.
  rewrite read_pad2 by lia. cbn [mbind option_bind].
  rewrite read_pad2 by lia. cbn [mbind option_bind].
  rewrite read_pad2 by lia. cbn [mbind option_bind].
  by destruct d.
Qed.

(** X12. Two storage keys are equal exactly when they were made in the
    same second for names with the same extension: the stem and the content
    of the file do not enter the key, and keys of different seconds never
    collide. *)
Theorem X12_key_identifies_second_and_extension d1 d2 name1 name2 :
  calendar d1 → calendar d2 →
  s3_key_of d1 name1 = s3_key_of d2 name2
  ↔ d1 = d2 ∧ file_extension name1 = file_extension name2.
Proof.
  intros Hd1 Hd2. split; [|by intros [-> Hext]; unfold s3_key_of; rewrite Hext].
  unfold s3_key_of. intros Heq%(inj (String.app _)).
  apply (f_equal strptime) in Heq.
  rewrite !strptime_strftime in Heq by done.
  injection Heq as -> Hext. split; [done|exact Hext].
Qed.

Lemma sample_calendar : calendar sample_now.
Proof. unfold calendar. cbn. lia. Qed.

Lemma X12_key_identifies_second_and_extension_witness :
  s3_key_of sample_now "lab.notes.pdf" = s3_key_of sample_now "other.pdf"
  ↔ sample_now = sample_now
    ∧ file_extension "lab.notes.pdf" = file_extension "other.pdf".
Proof.
  apply (X12_key_identifies_second_and_extension sample_now sample_now);
    exact sample_calendar.
Defined.

End KeyIdentity.

(** ** The preview block on every path (lines 203-240) *)

Section Preview.

Lemma col1_block_returns e ui st :
  ∃ sel, (col1_block e ui st).1 = Ok sel
    ∧ (sel = None ∨ sel = file_uploader ui)
    ∧ ticks (col1_block e ui st).2 = ticks st.
Proof.
  unfold col1_block, pdf_preview_body.
  destruct (file_uploader ui) as [f|];
    [|unfold_M; eexists; split; [done|]; split; [by left|done]].
  destruct (String.eqb _ _); [|destruct (String.prefix _ _)]; unfold_M;
    repeat match goal with
    | |- context [match ?o with Ok _ => _ | Raise _ => _ end] => destruct o
    | |- context [if ?c then _ else _] => destruct c
    | |- context [match ?l with [] => _ | _ :: _ => _ end] => destruct l
    end;
    cbn [fst snd log ticks];
    eexists; (split; [done|]); (split; [|done]); eauto.
Qed.


(** X14. A PDF is accepted exactly when the temporary file is written, the
    reader finds exactly one page, the text of that page can be extracted
    and the temporary file is removed: a single-page PDF whose text
    extraction or clean-up raises is rejected like a multi-page one. *)
Theorem X14_pdf_accepted_iff e ui st f :
  file_uploader ui = Some f →
  file_type f = "application/pdf" →
  (col1_block e ui st).1 = Ok (Some f)
  ↔ ∃ path text,
      tempfile_write e (file_value f) = Ok path
      ∧ PdfReader e path = Ok [Ok text]
      ∧ os_unlink e path = Ok tt.
Proof.
  intros Hsel Htype. unfold col1_block, pdf_preview_body.
  rewrite Hsel, Htype, String.eqb_refl. unfold_M. split.
  - destruct (tempfile_write e (file_value f)) as [path|]; [|done].
    destruct (PdfReader e path) as [pages|] eqn:Hpdf; [|done].
    destruct pages as [|page pages]; [done|].
    destruct pages as [|page' pages]; cbn [length Nat.ltb Nat.leb].
    + destruct page as [text|]; [|done].
      destruct (os_unlink e path) as [[]|] eqn:Hrm; [|done]. eauto.
    + by destruct (os_unlink e path).
  - intros (path & text & -> & -> & ->). done.
Qed.

Lemma X14_pdf_accepted_iff_witness :
  (col1_block sample_env (sample_ui sample_pdf) initial_state).1
  = Ok (Some sample_pdf)
  ↔ ∃ path text,
      tempfile_write sample_env (file_value sample_pdf) = Ok path
      ∧ PdfReader sample_env path = Ok [Ok text]
      ∧ os_unlink sample_env path = Ok tt.
Proof.
  apply (X14_pdf_accepted_iff sample_env (sample_ui sample_pdf)
           initial_state sample_pdf); reflexivity.
Defined.




End Preview.

(** ** The whole run (lines 145-283) *)

Section WholeRun.

(** process_document always returns a dictionary of the four entries, and
    its calls are the expected ones. *)
Lemma process_document_summary e key prompt st :
  ∃ x a t b st' evs,
    process_document e key prompt st
    = (Ok (dict [("extracted_text", x); ("analysis_result", a);
                 ("textract_time", t); ("bedrock_time", b)]), st')
    ∧ log st' = (log st ++ evs)%list
    ∧ List.filter is_network_call evs = process_document_calls e key prompt.
Proof.
  rewrite process_document_paths. unfold process_document_calls, ocr_text.
  unfold mbind, outcome_bind, empty_result.
  destruct (boto3_client e "textract" (AWS_REGION e));
    [destruct (boto3_client e "bedrock-runtime" (AWS_REGION e));
       [destruct (detect_document_text e _) as [out|];
          [destruct (extract_text out) as [text|];
             [cbv zeta;
              destruct (invoke_model e (model_call prompt text))
                as [response_body|];
                [destruct (first_content_text response_body)|]|]|]|]|];
    eexists _, _, _, _, _, _;
    (split; [reflexivity|]); cbn [log]; (split; reflexivity).
Qed.

Lemma getitem_result (x a t b : pyval) :
  let r := PDict (dict [("extracted_text", x); ("analysis_result", a);
                        ("textract_time", t); ("bedrock_time", b)]) in
  Py.getitem r "extracted_text" = Ok x
  ∧ Py.getitem r "analysis_result" = Ok a
  ∧ Py.getitem r "textract_time" = Ok t
  ∧ Py.getitem r "bedrock_time" = Ok b.
Proof. by repeat split. Qed.

Lemma col2_block_no_client e ui f st ex :
  button ui = true →
  boto3_client e "s3" (AWS_REGION e) = Raise ex →
  col2_block e ui (Some f) st
  = (Raise ex,
     {| log := log st ++ [StSpinner "Uploading file to S3..."];
        ticks := S (ticks st) |}).
Proof.
  intros Hbutton Hclient. unfold col2_block. rewrite Hbutton.
  unfold mbind at 1, M_bind at 1, time_time at 1.
  unfold mbind at 1, M_bind at 1, emit at 1.
  unfold mbind at 1, M_bind at 1. by rewrite upload_to_s3_unfold, Hclient.
Qed.

Lemma col2_block_upload_fails e ui f st u ex :
  button ui = true →
  boto3_client e "s3" (AWS_REGION e) = Ok u →
  upload_fileobj e f (S3_BUCKET e) (s3_key_of (datetime_now e) (file_name f))
  = Raise ex →
  col2_block e ui (Some f) st
  = (Ok tt,
     {| log := log st ++ [
          StSpinner "Uploading file to S3...";
          S3Upload (S3_BUCKET e) (s3_key_of (datetime_now e) (file_name f));
          StError "Error uploading to S3: " (Some ex);
          StError "Failed to upload file" None];
        ticks := S (ticks st) |}).
Proof.
  intros Hbutton Hclient Hup. unfold col2_block. rewrite Hbutton.
  unfold mbind at 1, M_bind at 1, time_time at 1.
  unfold mbind at 1, M_bind at 1, emit at 1.
  unfold mbind at 1, M_bind at 1.
  rewrite upload_to_s3_unfold, Hclient, Hup. unfold emit.
  cbn [log ticks]. by rewrite <- !app_assoc.
Qed.

Lemma col2_block_uploaded e ui f st u u' x a t b st' :
  button ui = true →
  boto3_client e "s3" (AWS_REGION e) = Ok u →
  upload_fileobj e f (S3_BUCKET e) (s3_key_of (datetime_now e) (file_name f))
  = Ok u' →
  process_document e (s3_key_of (datetime_now e) (file_name f))
    (prompt_text_area ui) (after_upload e f st)
  = (Ok (dict [("extracted_text", x); ("analysis_result", a);
               ("textract_time", t); ("bedrock_time", b)]), st') →
  col2_block e ui (Some f) st
  = (Ok tt,
     {| log := log st'
               ++ results_shown x a t b
                    (clock e (ticks st') - clock e (ticks st));
        ticks := S (ticks st') |}).
Proof.
  intros Hbutton Hclient Hup Hpd. unfold col2_block. rewrite Hbutton.
  unfold mbind at 1, M_bind at 1, time_time at 1.
  unfold mbind at 1, M_bind at 1, emit at 1.
  unfold mbind at 1, M_bind at 1.
  rewrite upload_to_s3_unfold, Hclient, Hup.
  unfold mbind at 1, M_bind at 1, emit at 1.
  unfold mbind at 1, M_bind at 1. cbn [log ticks].
  replace {| log := ((log st ++ [StSpinner "Uploading file to S3..."])
                     ++ [S3Upload (S3_BUCKET e)
                           (s3_key_of (datetime_now e) (file_name f))])
                    ++ [StSuccess "File uploaded successfully!"];
             ticks := S (ticks st) |}
    with (after_upload e f st)
    by (unfold after_upload; by rewrite <- !app_assoc).
  rewrite Hpd. unfold_M. unfold results_shown.
  destruct (getitem_result x a t b) as (-> & -> & -> & ->).
  by rewrite <- !app_assoc.
Qed.

End WholeRun.

(** ** What a run calls, shows and lets escape *)

Section Runs.

Lemma filter_local evs :
  Forall (fun ev => is_network_call ev = false) evs →
  List.filter is_network_call evs = [].
Proof.
  induction 1 as [|ev evs Hev _ IH]; [done|].
  cbn [List.filter]. by rewrite Hev.
Qed.

(** The service calls of a run of main. *)
Lemma main_log_calls e ui st :
  ∃ evs,
    log (main e ui st).2 = (log st ++ evs)%list
    ∧ List.filter is_network_call evs
      = match (col1_block e ui st).1 with
        | Ok (Some f) => if button ui then main_calls e ui f else []
        | _ => []
        end.
Proof.
  destruct (emits_col1_block e ui st) as (evs1 & Hlog1 & Hlocal%filter_local).
  unfold main, mbind, M_bind.
  destruct (col1_block e ui st) as [[[f|]|ex] st1]; cbn [fst snd] in *;
    [|exists evs1; by unfold_M..].
  destruct (button ui) eqn:Hbutton;
    [|exists evs1; unfold col2_block; rewrite Hbutton; by unfold_M].
  unfold main_calls.
  destruct (boto3_client e "s3" (AWS_REGION e)) as [u|ex] eqn:Hclient.
  - destruct (upload_fileobj e f (S3_BUCKET e)
                (s3_key_of (datetime_now e) (file_name f))) as [u'|ex] eqn:Hup.
    + destruct (process_document_summary e
                  (s3_key_of (datetime_now e) (file_name f))
                  (prompt_text_area ui) (after_upload e f st1))
        as (x & a & t & b & st' & evs & Hpd & Hlog & Hcalls).
      rewrite (col2_block_uploaded _ _ _ _ _ _ _ _ _ _ _
                 Hbutton Hclient Hup Hpd).
      eexists. cbn [snd log]. rewrite Hlog. unfold after_upload. cbn [log].
      rewrite Hlog1, <- !app_assoc. split; [done|].
      rewrite !List.filter_app, Hlocal, Hcalls. cbn. by rewrite app_nil_r.
    + rewrite (col2_block_upload_fails _ _ _ _ _ _ Hbutton Hclient Hup).
      eexists. cbn [snd log]. rewrite Hlog1, <- !app_assoc. split; [done|].
      by rewrite List.filter_app, Hlocal.
  - rewrite (col2_block_no_client _ _ _ _ _ Hbutton Hclient).
    eexists. cbn [snd log]. rewrite Hlog1, <- !app_assoc. split; [done|].
    by rewrite List.filter_app, Hlocal.
Qed.

(** X16. Every run of main calls the services in one fixed order and at
    most once each: the upload, then the OCR call on the uploaded object,
    then the model call on the extracted text; each call is made only if the
    one before it returned, and none without an accepted file and the
    button. *)
Theorem X16_main_calls_in_order e ui st :
  ∃ evs,
    log (main e ui st).2 = (log st ++ evs)%list
    ∧ List.filter is_network_call evs
      = match (col1_block e ui st).1 with
        | Ok (Some f) => if button ui then main_calls e ui f else []
        | _ => []
        end.
Proof. apply main_log_calls. Qed.

(** X17. After an upload that returned, main does not raise and always
    shows the three metrics and the two text areas, filled from what
    process_document returned, whatever happened to the OCR and model
    calls; the total time runs from the reading taken before the key was
    made to the one taken after process_document. *)
Theorem X17_results_always_shown e ui st f :
  (col1_block e ui st).1 = Ok (Some f) →
  button ui = true →
  boto3_client e "s3" (AWS_REGION e) = Ok tt →
  upload_fileobj e f (S3_BUCKET e) (s3_key_of (datetime_now e) (file_name f))
  = Ok tt →
  ∃ x a t b st',
    process_document e (s3_key_of (datetime_now e) (file_name f))
      (prompt_text_area ui) (after_upload e f (col1_block e ui st).2)
    = (Ok (dict [("extracted_text", x); ("analysis_result", a);
                 ("textract_time", t); ("bedrock_time", b)]), st')
    ∧ main e ui st
      = (Ok tt,
         {| log := log st'
                   ++ results_shown x a t b
                        (clock e (ticks st') - clock e (ticks st));
            ticks := S (ticks st') |}).
Proof.
  intros Hacc Hbutton Hclient Hup.
  destruct (col1_block_returns e ui st) as (sel & Hsel & _ & Hticks).
  unfold main, mbind, M_bind.
  destruct (col1_block e ui st) as [[sel'|ex] st1]; [|done].
  cbn [fst snd] in *. injection Hacc as ->.
  destruct (process_document_summary e
              (s3_key_of (datetime_now e) (file_name f))
              (prompt_text_area ui) (after_upload e f st1))
    as (x & a & t & b & st' & evs & Hpd & _ & _).
  exists x, a, t, b, st'. split; [done|].
  rewrite (col2_block_uploaded _ _ _ _ _ _ _ _ _ _ _
             Hbutton Hclient Hup Hpd).
  by rewrite Hticks.
Qed.

Lemma X17_results_always_shown_witness :
  ∃ x a t b st',
    process_document ocr_down_env
      (s3_key_of (datetime_now ocr_down_env) (file_name sample_image))
      (prompt_text_area (sample_ui sample_image))
      (after_upload ocr_down_env sample_image
         (col1_block ocr_down_env (sample_ui sample_image) initial_state).2)
    = (Ok (dict [("extracted_text", x); ("analysis_result", a);
                 ("textract_time", t); ("bedrock_time", b)]), st')
    ∧ main ocr_down_env (sample_ui sample_image) initial_state
      = (Ok tt,
         {| log := log st'
                   ++ results_shown x a t b
                        (clock ocr_down_env (ticks st')
                         - clock ocr_down_env (ticks initial_state));
            ticks := S (ticks st') |}).
Proof.
  apply (X17_results_always_shown ocr_down_env (sample_ui sample_image)
           initial_state sample_image); reflexivity.
Defined.






End Runs.

(** ** Empty extractions and the timings shown *)

Section Timings.

Lemma texts_none (blocks : list (gmap string pyval)) :
  Forall (fun block : gmap string pyval => block !! "Text" = None) blocks →
  omap (fun block : gmap string pyval => block !! "Text") blocks = [].
Proof.
  induction 1 as [|block blocks Hb _ IH]; [done|].
  cbn [omap list_omap]. rewrite Hb. exact IH.
Qed.

(** X21. An extraction that finds no text does not stop the pipeline: when
    no block of the OCR answer carries a text field, the extracted text is
    the empty string and the model is still called, on the prompt and an
    empty text. *)
Theorem X21_empty_extraction_still_analysed e key prompt st other
    (blocks : list (gmap string pyval)) :
  boto3_client e "textract" (AWS_REGION e) = Ok tt →
  boto3_client e "bedrock-runtime" (AWS_REGION e) = Ok tt →
  detect_document_text e (textract_document (S3_BUCKET e) key)
  = Ok (ocr_response other blocks) →
  Forall (fun block : gmap string pyval => block !! "Text" = None) blocks →
  ∃ r evs,
    (process_document e key prompt st).1 = Ok r
    ∧ r !! "extracted_text" = Some (PStr EmptyString)
    ∧ log (process_document e key prompt st).2 = (log st ++ evs)%list
    ∧ BedrockInvoke (model_call prompt EmptyString) ∈ evs.
Proof.
  intros Hocr Hmodel Hout Hnone.
  assert (Htext : extract_text (ocr_response other blocks) = Ok EmptyString).
  { unfold extract_text, ocr_response. cbn [Py.getitem].
    rewrite lookup_insert_eq. cbn [mbind outcome_bind Py.iter].
    by rewrite block_texts_dicts, (texts_none _ Hnone). }
  rewrite process_document_paths, Hocr, Hmodel, Hout.
  cbn [mbind outcome_bind]. rewrite Htext. cbv zeta.
  destruct (invoke_model e (model_call prompt EmptyString)
            ≫= first_content_text);
    eexists _, _; cbn [fst snd log];
    (split; [done|]); (split; [done|]); (split; [done|]);
    do 3 right; by left.
Qed.

Lemma X21_empty_extraction_still_analysed_witness :
  let e := mk_env steady_clock (Ok tt)
             (Ok (ocr_response ∅ [dict [("BlockType", PStr "PAGE")]]))
             (Ok sample_model_response) (Ok [Ok "NaCl 20 C"]) in
  ∃ r evs,
    (process_document e sample_key "Summarise" initial_state).1 = Ok r
    ∧ r !! "extracted_text" = Some (PStr EmptyString)
    ∧ log (process_document e sample_key "Summarise" initial_state).2
      = (log initial_state ++ evs)%list
    ∧ BedrockInvoke (model_call "Summarise" EmptyString) ∈ evs.
Proof.
  intros e.
  apply (X21_empty_extraction_still_analysed e sample_key "Summarise"
           initial_state ∅ [dict [("BlockType", PStr "PAGE")]]);
    [reflexivity | reflexivity | reflexivity |].
  repeat constructor.
Defined.



End Timings.
